(** * Verification of the lab job agent (src/agent.py)

    A shallow embedding of the job and session execution engine of
    [agent.py]: argument formatting, the sandbox resolver, log tails,
    the job and session controllers with their queue write-back, and the
    top-level [main].  External services (the queue store, the process
    spawner, the filesystem's symlink resolution) are Section variables:
    oracles whose answers the theorems quantify over. *)

From Stdlib Require Import List String Ascii ZArith Bool Lia Sorted Permutation.
Import ListNotations.
Open Scope list_scope.
Open Scope string_scope.

(* ------------------------------------------------------------------ *)
(** ** Python values *)

Module Py.

(** JSON scalars as the queue store returns them ([None], [bool], [int],
    [str]).  Floats are not modelled. *)
Inductive scalar :=
| SNone
| SBool (b : bool)
| SInt (z : Z)
| SStr (s : string).

(** The [args] payload of a job record: Python dispatches on its runtime
    type with [isinstance].  Sequences and mappings hold scalars
    (the [str] of a nested container is Python's [repr], not modelled). *)
Inductive args_payload :=
| ANone
| AList (xs : list scalar)
| ADict (kvs : list (string * scalar))
| AStr (s : string)
| AOther (v : scalar).

Definition digit_char (d : Z) : ascii := ascii_of_nat (48 + Z.to_nat d).

(** Decimal digits of a non-negative integer; [fuel] bounds the number of
    digits. *)
Fixpoint digits_aux (fuel : nat) (n : Z) (acc : string) : string :=
  match fuel with
  | O => acc
  | S f =>
      let acc' := String (digit_char (n mod 10)) acc in
      if (n <? 10)%Z then acc' else digits_aux f (n / 10)%Z acc'
  end.

(** [str(n)] for a Python [int]. *)
Definition str_int (n : Z) : string :=
  match n with
  | Z0 => "0"
  | Zpos p => digits_aux (Pos.size_nat p) n ""
  | Zneg p => "-" ++ digits_aux (Pos.size_nat p) (Zpos p) ""
  end.

(** [str(v)] for a scalar. *)
Definition py_str (v : scalar) : string :=
  match v with
  | SNone => "None"
  | SBool true => "True"
  | SBool false => "False"
  | SInt z => str_int z
  | SStr s => s
  end.

End Py.

Import Py.

(* ------------------------------------------------------------------ *)
(** ** [shlex.split] (POSIX mode, [whitespace_split = True], no comments) *)

Module Shlex.

Definition whitespace (c : ascii) : bool :=
  match c with
  | " "%char | "009"%char | "013"%char | "010"%char => true
  | _ => false
  end.

Definition is_quote (c : ascii) : bool :=
  (c =? "'")%char || (c =? "034")%char.

Definition is_escape (c : ascii) : bool := (c =? "\")%char.

Definition is_escapedquote (c : ascii) : bool := (c =? "034")%char.

(** [read_token] run to exhaustion, as [list(shlex(s, posix=True))] with
    [whitespace_split] set: [st] is [self.state], the character the source
    stores there ([" "], ["a"], a quote or the escape character; the
    state [None] of end of input is the [EmptyString] case), [tok] is [self.token], [quoted] and [esc] the
    locals [quoted] and [escapedstate] of the current [read_token] call,
    [acc] the tokens emitted so far (reversed).  A [ValueError] is [None]. *)
Fixpoint lex (st : ascii) (tok : string) (quoted : bool) (esc : ascii)
    (acc : list string) (s : string) : option (list string) :=
  match s with
  | EmptyString =>
      (* nextchar = '' *)
      if (st =? " ")%char || (st =? "a")%char then
        (* state becomes None; the token is returned unless it is an
           unquoted empty token, which ends the iteration *)
        if negb quoted && (tok =? "")%string then Some (rev acc)
        else Some (rev (tok :: acc))
      else None  (* "No closing quotation" / "No escaped character" *)
  | String c rest =>
      if (st =? " ")%char then
        if whitespace c then
          if negb (tok =? "")%string || quoted
          then lex " " "" false " " (tok :: acc) rest
          else lex " " tok quoted esc acc rest
        else if is_escape c then lex c tok quoted "a" acc rest
        else if is_quote c then lex c tok quoted esc acc rest
        else lex "a" (String c "") quoted esc acc rest
      else if is_quote st then
        if (c =? st)%char then lex "a" tok true esc acc rest
        else if is_escape c && is_escapedquote st
        then lex c tok true st acc rest
        else lex st (tok ++ String c "") true esc acc rest
      else if is_escape st then
        let tok1 := if is_quote esc && negb (c =? st)%char && negb (c =? esc)%char
                    then tok ++ String st "" else tok in
        lex esc (tok1 ++ String c "") quoted esc acc rest
      else (* state 'a' *)
        if whitespace c then
          if negb (tok =? "")%string || quoted
          then lex " " "" false " " (tok :: acc) rest
          else lex " " tok quoted esc acc rest
        else if is_quote c then lex c tok quoted esc acc rest
        else if is_escape c then lex c tok quoted "a" acc rest
        else lex "a" (tok ++ String c "") quoted esc acc rest
  end.

Definition split (s : string) : option (list string) := lex " " "" false " " [] s.

(** The [(self.state, escapedstate)] that [lex] reaches at the end of
    input: its transitions, without the token bookkeeping. *)
Fixpoint final_state (st esc : ascii) (s : string) : ascii :=
  match s with
  | EmptyString => st
  | String c rest =>
      if (st =? " ")%char || (st =? "a")%char then
        if whitespace c then final_state " " esc rest
        else if is_escape c then final_state c "a" rest
        else if is_quote c then final_state c esc rest
        else final_state "a" esc rest
      else if is_quote st then
        if (c =? st)%char then final_state "a" esc rest
        else if is_escape c && is_escapedquote st then final_state c st rest
        else final_state st esc rest
      else if is_escape st then final_state esc esc rest
      else final_state "a" esc rest
  end.

(** The message of the [ValueError] raised at end of input: in the
    escape state ["No escaped character"], in a quote state
    ["No closing quotation"]. *)
Definition error_message (s : string) : string :=
  if is_escape (final_state " " " " s) then "No escaped character"
  else "No closing quotation".

End Shlex.

(* ------------------------------------------------------------------ *)
(** ** [format_args] *)

(** Errors raised by the modelled code. *)
Inductive exc :=
| RuntimeError (msg : string)
| ValueError (msg : string)
| QueueError (table column : string)
| StageError (name : string).

Inductive res (A : Type) :=
| Ok (a : A)
| Raise (e : exc).
Arguments Ok {A} a.
Arguments Raise {A} e.

Definition format_args (raw_args : args_payload) : res (list string) :=
  match raw_args with
  | ANone => Ok []
  | AList xs => Ok (map py_str xs)
  | ADict kvs =>
      Ok (flat_map (fun '(key, value) =>
                      ("--" ++ key) :: match value with
                                      | SNone => []
                                      | _ => [py_str value]
                                      end) kvs)
  | AStr s =>
      match Shlex.split s with
      | Some toks => Ok toks
      | None => Raise (ValueError (Shlex.error_message s))
      end
  | AOther v => Ok [py_str v]
  end.

(* ------------------------------------------------------------------ *)
(** ** Paths (POSIX [pathlib]) *)

Module PPath.

(** A path is its list of components below the root; an absolute path is
    kept as such a list, the root itself being implicit. *)
Definition path := list string.

Fixpoint split_slash (s : string) (cur : string) : list string :=
  match s with
  | EmptyString => [cur]
  | String c rest =>
      if (c =? "/")%char then cur :: split_slash rest ""
      else split_slash rest (cur ++ String c "")
  end.

(** [Path(s).parts] without the root: empty and ["."] components vanish. *)
Definition parts (s : string) : path :=
  filter (fun c => negb ((c =? "") || (c =? "."))) (split_slash s "").

Definition is_absolute (s : string) : bool :=
  match s with
  | String c _ => (c =? "/")%char
  | EmptyString => false
  end.

(** [a / s] for a [Path] [a] and a string [s]. *)
Definition join (a : path) (s : string) : path :=
  if is_absolute s then parts s else app a (parts s).

Definition to_str (p : path) : string := "/" ++ String.concat "/" p.

(** [PurePath.name]: the last component. *)
Definition name (p : path) : string := last p "".

(** Index of the last ["."] in [s] ([str.rfind]). *)
Fixpoint rfind_dot (s : string) (i : nat) (best : option nat) : option nat :=
  match s with
  | EmptyString => best
  | String c rest => rfind_dot rest (S i) (if (c =? ".")%char then Some i else best)
  end.

(** [PurePath.suffix]: [name[i:]] when [0 < i < len(name) - 1]. *)
Definition suffix (p : path) : string :=
  let nm := name p in
  match rfind_dot nm 0 None with
  | Some i =>
      if Nat.ltb 0 i && Nat.ltb i (String.length nm - 1)
      then String.substring i (String.length nm - i) nm
      else ""
  | None => ""
  end.

Fixpoint lstrip_dots (s : string) : string :=
  match s with
  | String c rest => if (c =? ".")%char then lstrip_dots rest else s
  | EmptyString => s
  end.

(** [p.relative_to(base)] succeeds exactly when [base] is a prefix. *)
Fixpoint is_prefix (base p : path) : bool :=
  match base, p with
  | [], _ => true
  | b :: bs, q :: qs => (b =? q) && is_prefix bs qs
  | _ :: _, [] => false
  end.

End PPath.

Import PPath.

Definition ALLOWED_SUFFIXES : list string := [".py"; ".ipynb"].
Definition SKIP_DIRS : list string :=
  [".venv"; ".cache"; ".local"; "anaconda3"; "__pycache__"; ".git"].

Definition mem (x : string) (l : list string) : bool := existsb (String.eqb x) l.

(** [should_skip]: some part of the path is a skipped directory. *)
Definition should_skip (p : path) : bool := existsb (fun part => mem part SKIP_DIRS) p.

Section Sandbox.

(** [HOME], the filesystem's [resolve()] (symlinks and [..] resolved, as
    an absolute path) and [exists()]. *)
Variable HOME : path.
Variable resolve : path -> path.
Variable exists_ : path -> bool.

Definition ensure_allowed_script (script_path expected_type : string) : res path :=
  if is_absolute script_path then
    Raise (RuntimeError "script_path must be relative to the home directory")
  else
    let resolved := resolve (join HOME script_path) in
    if negb (is_prefix HOME resolved) then
      Raise (RuntimeError "script_path must stay under the home directory")
    else if negb (mem (suffix resolved) ALLOWED_SUFFIXES) then
      Raise (RuntimeError "Only .py or .ipynb scripts are allowed")
    else if negb (expected_type =? "") && negb (lstrip_dots (suffix resolved) =? expected_type) then
      Raise (RuntimeError ("Script type mismatch: expected " ++ expected_type))
    else if negb (exists_ resolved) then
      Raise (RuntimeError ("Script not found: " ++ to_str resolved))
    else if should_skip resolved then
      Raise (RuntimeError ("Script is under skipped directory: " ++ to_str resolved))
    else Ok resolved.

End Sandbox.

(** The canonical resolution of [HOME / p] ([(HOME / path).resolve()]). *)
Definition canonical (HOME : path) (resolve : path -> path) (p : string) : path :=
  resolve (app HOME (parts p)).

(* ------------------------------------------------------------------ *)
(** ** Log tails *)

(** [str.splitlines] on ASCII text: the line boundaries are [\n], [\r],
    [\r\n], [\v], [\f], [\x1c], [\x1d] and [\x1e]. *)
Definition line_break (c : ascii) : bool :=
  match nat_of_ascii c with
  | 10 | 11 | 12 | 13 | 28 | 29 | 30 => true
  | _ => false
  end.

Fixpoint splitlines_aux (s : string) (cur : string) : list string :=
  match s with
  | EmptyString => if cur =? "" then [] else [cur]
  | String c rest =>
      if line_break c then
        let rest' := if (c =? "013")%char then
                       match rest with
                       | String "010"%char r => r
                       | _ => rest
                       end
                     else rest in
        cur :: splitlines_aux rest' ""
      else splitlines_aux rest (cur ++ String c "")
  end.

Definition splitlines (s : string) : list string := splitlines_aux s "".

(** What [path.exists()] and [path.read_text()] see. *)
Inductive file_status :=
| FMissing
| FUnreadable
| FText (contents : string).

Definition NL : string := String "010" "".

(** [lines[-n:]]; [lines[-0:]] is the whole list. *)
Definition last_n {A} (n : nat) (l : list A) : list A :=
  if Nat.eqb n 0 then l else skipn (List.length l - n) l.

Definition get_tail (f : file_status) (num_lines : nat) : option string :=
  match f with
  | FMissing => None
  | FUnreadable => None
  | FText contents =>
      let lines := splitlines contents in
      if Nat.leb (List.length lines) num_lines then Some (String.concat NL lines)
      else Some (String.concat NL (last_n num_lines lines))
  end.

(* ------------------------------------------------------------------ *)
(** ** Effects: the host's log files and the trace of external calls *)

(** A queue payload or a queue row as a Python dict. *)
Definition dict := list (string * scalar).

Fixpoint dget (d : dict) (k : string) : option scalar :=
  match d with
  | [] => None
  | (k', v) :: d' => if k =? k' then Some v else dget d' k
  end.

(** A job record: [job.get(k)] for each key the controller reads, with
    key presence kept for the identifier ([None] = key absent). *)
Record job := {
  f_job_id : option scalar;
  f_id : option scalar;
  f_script_id : scalar;
  f_script_path : option string;
  f_args : args_payload }.

(** A row of the [scripts] table ([select *] rows are non-empty dicts,
    hence truthy). *)
Record script_row := { row_path : option string; row_type : option string }.

(** What a spawn ([subprocess.Popen] then [wait]) does: the child runs
    to exit writing [out] and [err] to its redirected streams, or
    [Popen] raises. *)
Inductive launch :=
| Launched (retcode : Z) (out err : string)
| LaunchFailed (msg : string).

(** Calls to collaborators, newest first in the trace.  [EvUpdate] is one
    [update(...).eq(column, id).execute()] attempt and whether it
    succeeded; [EvValidate] a call of the Sandbox Resolver; [EvSpawn] a
    call of the Process Runner; [EvNotify] a call of [send_email];
    [EvSelect] a [select] on a queue table that reaches the store. *)
Inductive event :=
| EvUpdate (table column : string) (id : scalar) (payload : dict) (succeeded : bool)
| EvValidate (script_path expected_type : string)
| EvSpawn (cmd : list string) (cwd : path)
| EvNotify (j : job) (status : string) (retcode : scalar)
    (stdout_path stderr_path : string) (error_message : option string)
| EvSelect (table : string).

Record world := { files : list (path * string); trace : list event }.

Fixpoint file_lookup (fs : list (path * string)) (p : path) : option string :=
  match fs with
  | [] => None
  | (q, c) :: fs' => if list_eq_dec string_dec p q then Some c else file_lookup fs' p
  end.

Definition M (A : Type) := world -> res A * world.

Definition ret {A} (a : A) : M A := fun w => (Ok a, w).
Definition raise {A} (e : exc) : M A := fun w => (Raise e, w).
Definition bind {A B} (m : M A) (k : A -> M B) : M B :=
  fun w => match m w with
           | (Ok a, w') => k a w'
           | (Raise e, w') => (Raise e, w')
           end.
(** [try: m except Exception as exc: h(exc)]: effects before the raise stay. *)
Definition try_except {A} (m : M A) (h : exc -> M A) : M A :=
  fun w => match m w with
           | (Ok a, w') => (Ok a, w')
           | (Raise e, w') => h e w'
           end.
Definition lift {A} (r : res A) : M A := fun w => (r, w).

Notation "x <- c ;; k" := (bind c (fun x => k)) (at level 61, c at next level, right associativity).
Notation "c ;; k" := (bind c (fun _ : unit => k)) (at level 61, right associativity).

Definition emit (e : event) : M unit :=
  fun w => (Ok tt, {| files := files w; trace := e :: trace w |}).

(** [path.write_text(s)] and [path.open("w")]. *)
Definition write_text (p : path) (s : string) : M unit :=
  fun w => (Ok tt, {| files := (p, s) :: files w; trace := trace w |}).

(** Writing [s] through a handle opened with [open("a")]. *)
Definition append_text (p : path) (s : string) : M unit :=
  fun w => let old := match file_lookup (files w) p with Some c => c | None => "" end in
           (Ok tt, {| files := (p, old ++ s) :: files w; trace := trace w |}).

(* ------------------------------------------------------------------ *)
(** ** Python truthiness *)

Definition truthy (v : scalar) : bool :=
  match v with
  | SNone => false
  | SBool b => b
  | SInt z => negb (z =? 0)%Z
  | SStr s => negb (s =? "")
  end.

Definition is_none (v : scalar) : bool :=
  match v with SNone => true | _ => false end.

(** [a or b] *)
Definition py_or (a b : scalar) : scalar := if truthy a then a else b.

Definition or_str (a : option string) (b : string) : string :=
  match a with Some s => if s =? "" then b else s | None => b end.

Definition odflt {A} (d : A) (o : option A) : A := match o with Some a => a | None => d end.

(* ------------------------------------------------------------------ *)
(** ** The job controller *)

Definition exc_str (e : exc) : string :=
  match e with
  | RuntimeError m | ValueError m => m
  | QueueError t c => "update of " ++ t ++ " by " ++ c ++ " failed"
  | StageError n => n
  end.

Definition opt_str (o : option string) : scalar :=
  match o with Some s => SStr s | None => SNone end.

Definition parent (p : path) : path := removelast p.

Definition build_nbconvert_command (script_full output_nb : path) : list string :=
  ["jupyter"; "nbconvert"; "--to"; "notebook"; "--execute"; to_str script_full;
   "--output"; name output_nb; "--output-dir"; to_str (parent output_nb)].

(** [job.get("job_id") or job.get("id")] *)
Definition job_id_of (j : job) : scalar := py_or (odflt SNone (f_job_id j)) (odflt SNone (f_id j)).

(** The most recent update attempt in a trace, newest first. *)
Fixpoint last_update (tr : list event) : option dict :=
  match tr with
  | [] => None
  | EvUpdate _ _ _ payload _ :: _ => Some payload
  | _ :: tr' => last_update tr'
  end.

Section Agent.

(** The filesystem: home directory, [resolve()], [exists()] on scripts,
    and which log files [read_text()] fails on. *)
Variable HOME : path.
Variable resolve : path -> path.
Variable exists_ : path -> bool.
Variable unreadable : path -> bool.
(** The queue store: the rows a [select] on [scripts] by [key] returns
    ([None]: the query raises), and whether an update by [column] succeeds. *)
Variable query_scripts : string -> scalar -> string -> option (list script_row).
Variable queue_accepts : string -> string -> scalar -> dict -> bool.
(** The Process Runner and the clock. *)
Variable spawn : list string -> path -> launch.
Variable now : string.

Definition LOG_ROOT : path := app HOME ["lab_job_logs"].

Definition file_status_of (w : world) (p : path) : file_status :=
  match file_lookup (files w) p with
  | None => FMissing
  | Some c => if unreadable p then FUnreadable else FText c
  end.

Fixpoint fetch_script_keys (keys : list string) (script_id : scalar) (user_id : string)
    : option script_row :=
  match keys with
  | [] => None
  | key :: ks =>
      match query_scripts key script_id user_id with
      | None => fetch_script_keys ks script_id user_id
      | Some [] => fetch_script_keys ks script_id user_id
      | Some (row :: _) => Some row
      end
  end.

Definition fetch_script (script_id : scalar) (user_id : string) : option script_row :=
  fetch_script_keys ["script_id"; "id"] script_id user_id.

(** The loop of [update_job] / [update_session]: try each column in turn,
    return on the first success, re-raise the last failure. *)
Fixpoint update_loop (table : string) (columns : list string) (id : scalar)
    (payload : dict) (last_exc : option exc) : M unit :=
  match columns with
  | [] => match last_exc with Some e => raise e | None => ret tt end
  | column :: cs =>
      if queue_accepts table column id payload then
        emit (EvUpdate table column id payload true)
      else
        emit (EvUpdate table column id payload false) ;;
        update_loop table cs id payload (Some (QueueError table column))
  end.

Definition update_job (job_id : scalar) (payload : dict) (use_job_id : bool) : M unit :=
  let columns := if use_job_id then ["job_id"; "id"] else ["id"; "job_id"] in
  update_loop "jobs" columns job_id payload None.

Definition update_session (session_id : scalar) (payload : dict) (use_session_id : bool)
    : M unit :=
  let columns := if use_session_id then ["session_id"; "id"] else ["id"; "session_id"] in
  update_loop "jupyter_sessions" columns session_id payload None.

Definition get_tail_at (p : path) : M (option string) :=
  fun w => (Ok (get_tail (file_status_of w p) 20), w).

Definition send_email (j : job) (status : string) (retcode : scalar)
    (stdout_path stderr_path : path) (error_message : option string) : M unit :=
  emit (EvNotify j status retcode (to_str stdout_path) (to_str stderr_path) error_message).

Definition is_zero (v : scalar) : bool :=
  match v with SInt Z0 => true | _ => false end.

(** Lines 394-422 of [run_job]: run the command with both logs opened
    with ["w"], then write the terminal state and notify. *)
Definition execute_job (job_id : scalar) (use_job_id : bool) (j : job) (cmd : list string)
    (cwd stdout_path stderr_path : path) : M unit :=
  write_text stdout_path "" ;;
  write_text stderr_path "" ;;
  emit (EvSpawn cmd cwd) ;;
  retcode <- (match spawn cmd cwd with
              | Launched rc out err =>
                  append_text stdout_path out ;; append_text stderr_path err ;; ret (SInt rc)
              | LaunchFailed msg =>
                  append_text stderr_path ("Failed to start job: " ++ msg ++ NL) ;; ret SNone
              end) ;;
  let status := if is_zero retcode then "done" else "error" in
  stdout_tail <- get_tail_at stdout_path ;;
  stderr_tail <- get_tail_at stderr_path ;;
  update_job job_id
    [("status", SStr status); ("finished_at", SStr now); ("retcode", retcode);
     ("stdout_path", SStr (to_str stdout_path)); ("stderr_path", SStr (to_str stderr_path));
     ("stdout_tail", opt_str stdout_tail); ("stderr_tail", opt_str stderr_tail)]
    use_job_id ;;
  send_email j status retcode stdout_path stderr_path None.

Definition run_job (j : job) (user_id : string) : M unit :=
  let job_id := job_id_of j in
  let use_job_id := match f_job_id j with Some _ => true | None => false end in
  let script_id := f_script_id j in
  args <- lift (format_args (f_args j)) ;;
  let log_dir := join LOG_ROOT (py_str job_id) in
  let stdout_path := app log_dir ["stdout.log"] in
  let stderr_path := app log_dir ["stderr.log"] in
  let script_row := if is_none script_id then None else fetch_script script_id user_id in
  let script_path := or_str (match script_row with Some r => row_path r | None => None end)
                            (or_str (f_script_path j) "") in
  if negb (is_none script_id) && match script_row with None => true | Some _ => false end then
    (if negb (is_none job_id) then
       write_text stderr_path ("script not found" ++ NL) ;;
       update_job job_id
         [("status", SStr "error"); ("finished_at", SStr now);
          ("stderr_path", SStr (to_str stderr_path)); ("stdout_path", SStr (to_str stdout_path));
          ("stderr_tail", SStr "script not found")]
         use_job_id ;;
       send_email j "error" SNone stdout_path stderr_path (Some "script not found")
     else ret tt)
  else if script_path =? "" then
    write_text stderr_path ("script_path is empty" ++ NL) ;;
    update_job job_id
      [("status", SStr "error"); ("finished_at", SStr now);
       ("stderr_path", SStr (to_str stderr_path)); ("stdout_path", SStr (to_str stdout_path));
       ("stderr_tail", SStr "script_path missing")]
      use_job_id ;;
    send_email j "error" SNone stdout_path stderr_path (Some "script_path missing")
  else
    let script_type := or_str (match script_row with Some r => row_type r | None => None end)
                              (lstrip_dots (suffix (parts script_path))) in
    let j := {| f_job_id := f_job_id j; f_id := f_id j; f_script_id := f_script_id j;
                f_script_path := Some script_path; f_args := f_args j |} in
    outcome <- try_except
                 (emit (EvValidate script_path script_type) ;;
                  full <- lift (ensure_allowed_script HOME resolve exists_ script_path script_type) ;;
                  ret (Ok full))
                 (fun e => ret (Raise e)) ;;
    match outcome with
    | Raise e =>
        update_job job_id
          [("status", SStr "error"); ("finished_at", SStr now);
           ("stdout_path", SStr (to_str stdout_path)); ("stderr_path", SStr (to_str stderr_path));
           ("retcode", SNone); ("stderr_tail", SStr (exc_str e))]
          use_job_id ;;
        send_email j "error" SNone stdout_path stderr_path (Some (exc_str e))
    | Ok script_full =>
        update_job job_id [("status", SStr "running"); ("started_at", SStr now)] use_job_id ;;
        if suffix script_full =? ".py" then
          let cmd := ["python"; to_str script_full] in
          let cmd := match args with [] => cmd | _ => app cmd args end in
          execute_job job_id use_job_id j cmd (parent script_full) stdout_path stderr_path
        else
          let output_nb := app log_dir ["output.ipynb"] in
          let cmd := build_nbconvert_command script_full output_nb in
          (match args with
           | [] => ret tt
           | _ => append_text stderr_path ("Args are ignored for ipynb jobs." ++ NL)
           end) ;;
          execute_job job_id use_job_id j cmd (parent script_full) stdout_path stderr_path
    end.

(* ------------------------------------------------------------------ *)
(** ** The session controller *)

(** A [jupyter_sessions] row: [session_id] and [id] with key presence. *)
Record session := { s_session_id : option scalar; s_id : option scalar }.

Inductive server_launch :=
| ServerStarted (pid : Z)
| ServerFailed (msg : string).

(** The sessions a [select] on [jupyter_sessions] returns ([None]: it
    raises), [Popen] of the server, [os.getuid()], [os.urandom(n)] as
    used by [secrets.token_hex] (bytes as integers in [0, 256)), and the
    configuration's base port, bind address and legacy flag. *)
Variable query_sessions : string -> option (list session).
Variable spawn_server : list string -> server_launch.
Variable getuid : Z.
Variable urandom : nat -> list Z.
Variable jupyter_base_port : Z.
Variable jupyter_ip : string.
Variable jupyter_legacy : bool.

Definition hex_digit (d : Z) : ascii :=
  if (d <? 10)%Z then ascii_of_nat (48 + Z.to_nat d) else ascii_of_nat (87 + Z.to_nat d).

(** [bytes.hex()]: two lowercase hex digits per byte. *)
Fixpoint hex (bs : list Z) : string :=
  match bs with
  | [] => ""
  | b :: bs' => String (hex_digit (b / 16)) (String (hex_digit (b mod 16)) (hex bs'))
  end.

Definition token_hex (nbytes : nat) : string := hex (urandom nbytes).

Definition fetch_pending_session (user_id : string) : M (option session) :=
  emit (EvSelect "jupyter_sessions") ;;
  match query_sessions user_id with
  | None => raise (QueueError "jupyter_sessions" "select")
  | Some [] => ret None
  | Some (s :: _) => ret (Some s)
  end.

Definition launch_cmd (port : Z) (token : string) : list string :=
  let app_prefix := if jupyter_legacy then "NotebookApp" else "ServerApp" in
  ["jupyter"; "lab"; "--no-browser"; "--port=" ++ str_int port; "--ip=" ++ jupyter_ip;
   "--" ++ app_prefix ++ ".token=" ++ token; "--" ++ app_prefix ++ ".password=''"].

Definition handle_jupyter_sessions (user_id : string) : M unit :=
  sess <- fetch_pending_session user_id ;;
  match sess with
  | None => ret tt
  | Some s =>
      let session_id := py_or (odflt SNone (s_session_id s)) (odflt SNone (s_id s)) in
      let use_session_id := match s_session_id s with Some _ => true | None => false end in
      let port_base := jupyter_base_port in
      let port := (port_base + getuid mod 100)%Z in
      let token := token_hex 16 in
      update_session session_id [("status", SStr "starting"); ("updated_at", SStr now)]
        use_session_id ;;
      match spawn_server (launch_cmd port token) with
      | ServerFailed msg =>
          update_session session_id
            [("status", SStr "error"); ("error_message", SStr msg); ("updated_at", SStr now)]
            use_session_id
      | ServerStarted pid =>
          update_session session_id
            [("status", SStr "running"); ("port", SInt port); ("token", SStr token);
             ("pid", SInt pid); ("updated_at", SStr now)]
            use_session_id
      end
  end.

(* ------------------------------------------------------------------ *)
(** ** [main] *)

(** Bootstrap outcomes ([load_config], [make_supabase_client],
    [resolve_user_id]), the inventory sync stage (the body of its [try]:
    [should_sync_scripts], [discover_scripts], [sync_scripts],
    [record_sync_time]) and the pending jobs a [select] on [jobs] returns
    ([None]: it raises). *)
Variable config_ok : bool.
Variable client_ok : bool.
Variable resolve_user_id : res string.
Variable sync_inventory : string -> M unit.
Variable query_jobs : string -> option (list job).

Definition fetch_next_job (user_id : string) : M (option job) :=
  emit (EvSelect "jobs") ;;
  match query_jobs user_id with
  | None => raise (QueueError "jobs" "select")
  | Some [] => ret None
  | Some (j :: _) => ret (Some j)
  end.

Definition main : M Z :=
  if negb config_ok then ret 1%Z
  else if negb client_ok then ret 1%Z
  else match resolve_user_id with
  | Raise _ => ret 1%Z
  | Ok user_id =>
      try_except (sync_inventory user_id) (fun _ => ret tt) ;;
      fetched <- try_except (j <- fetch_next_job user_id ;; ret (inl j))
                            (fun e => ret (inr e)) ;;
      match fetched with
      | inr _ => ret 1%Z
      | inl job =>
          (match job with
           | Some j => run_job j user_id
           | None => ret tt
           end) ;;
          try_except (handle_jupyter_sessions user_id) (fun _ => ret tt) ;;
          ret 0%Z
      end
  end.

End Agent.

(* ------------------------------------------------------------------ *)
(** ** Configuration: [require_env], [load_config], [resolve_user_id] *)

(** Whitespace as [str.strip()] and [int()] see it on ASCII text. *)
Definition py_space (c : ascii) : bool :=
  match nat_of_ascii c with
  | 9 | 10 | 11 | 12 | 13 | 28 | 29 | 30 | 31 | 32 => true
  | _ => false
  end.

Fixpoint lstrip_space (s : string) : string :=
  match s with
  | String c rest => if py_space c then lstrip_space rest else s
  | EmptyString => s
  end.

Fixpoint rstrip_space (s : string) : string :=
  match s with
  | EmptyString => EmptyString
  | String c rest =>
      let rest' := rstrip_space rest in
      if (rest' =? "") && py_space c then "" else String c rest'
  end.

(** [str.strip()] *)
Definition py_strip (s : string) : string := rstrip_space (lstrip_space s).

Definition digit_val (c : ascii) : option Z :=
  let n := nat_of_ascii c in
  if Nat.leb 48 n && Nat.leb n 57 then Some (Z.of_nat (n - 48)) else None.

(** The digits of a base-10 literal: at least one digit, single
    underscores only between digits. *)
Fixpoint int_digits (s : string) (acc : Z) (after_digit : bool) : option Z :=
  match s with
  | EmptyString => if after_digit then Some acc else None
  | String c rest =>
      match digit_val c with
      | Some d => int_digits rest (acc * 10 + d)%Z true
      | None => if (c =? "_")%char && after_digit then int_digits rest acc false else None
      end
  end.

(** [int(s)] for a [str] [s] of ASCII characters: surrounding whitespace,
    an optional sign, then the digits.  The [ValueError] message quotes
    [s] as [repr] does for a string without quotes or backslashes. *)
Definition py_int (s : string) : res Z :=
  let t := py_strip s in
  let r := match t with
           | String "-" rest => option_map Z.opp (int_digits rest 0 false)
           | String "+" rest => int_digits rest 0 false
           | _ => int_digits t 0 false
           end in
  match r with
  | Some n => Ok n
  | None => Raise (ValueError ("invalid literal for int() with base 10: '" ++ s ++ "'"))
  end.

(** [str.lower()] on ASCII. *)
Definition ascii_lower (c : ascii) : ascii :=
  let n := nat_of_ascii c in
  if Nat.leb 65 n && Nat.leb n 90 then ascii_of_nat (n + 32) else c.

Fixpoint py_lower (s : string) : string :=
  match s with
  | EmptyString => EmptyString
  | String c rest => String (ascii_lower c) (py_lower rest)
  end.

Definition res_bind {A B} (r : res A) (k : A -> res B) : res B :=
  match r with Ok a => k a | Raise e => Raise e end.

Definition DEFAULT_JUPYTER_BASE_PORT : Z := 8800.
Definition DEFAULT_SYNC_INTERVAL_MIN : Z := 10.

(** The dict [load_config] returns. *)
Record config := {
  c_user : string;
  c_user_id : option string;
  c_email : string;
  c_supabase_url : string;
  c_supabase_service_key : string;
  c_smtp_host : string;
  c_smtp_port : Z;
  c_from_email : string;
  c_jupyter_base_port : Z;
  c_jupyter_ip : string;
  c_jupyter_legacy : bool;
  c_sync_interval_min : Z }.

Section Config.

(** [os.getenv] once [load_dotenv()] has run ([None]: unset). *)
Variable getenv : string -> option string.

Definition require_env (name : string) : res string :=
  match getenv name with
  | Some value => if value =? "" then Raise (RuntimeError (name ++ " is required in .env"))
                  else Ok value
  | None => Raise (RuntimeError (name ++ " is required in .env"))
  end.

(** [int(os.getenv(name, default))] with an [int] default. *)
Definition int_env (name : string) (default : Z) : res Z :=
  match getenv name with
  | Some s => py_int s
  | None => Ok default
  end.

(** The dict literal's values are evaluated in order, after [LAB_EMAIL]. *)
Definition load_config : res config :=
  res_bind (require_env "LAB_EMAIL") (fun lab_email =>
  res_bind (require_env "LAB_USER") (fun user =>
  let user_id := getenv "LAB_USER_ID" in
  res_bind (require_env "SUPABASE_URL") (fun url =>
  res_bind (require_env "SUPABASE_SERVICE_KEY") (fun key =>
  let smtp_host := odflt "localhost" (getenv "SMTP_HOST") in
  res_bind (py_int (odflt "25" (getenv "SMTP_PORT"))) (fun smtp_port =>
  let from_email := odflt lab_email (getenv "LAB_FROM_EMAIL") in
  res_bind (int_env "JUPYTER_BASE_PORT" DEFAULT_JUPYTER_BASE_PORT) (fun base_port =>
  let ip := odflt "0.0.0.0" (getenv "JUPYTER_IP") in
  let legacy := mem (py_lower (odflt "" (getenv "JUPYTER_LEGACY"))) ["1"; "true"; "yes"] in
  res_bind (int_env "SYNC_INTERVAL_MIN" DEFAULT_SYNC_INTERVAL_MIN) (fun interval =>
  Ok {| c_user := user; c_user_id := user_id; c_email := lab_email;
        c_supabase_url := url; c_supabase_service_key := key;
        c_smtp_host := smtp_host; c_smtp_port := smtp_port; c_from_email := from_email;
        c_jupyter_base_port := base_port; c_jupyter_ip := ip;
        c_jupyter_legacy := legacy; c_sync_interval_min := interval |}))))))).

End Config.

Section Users.

(** The [user_id] field ([None]: key absent) of each row a [select] on
    [users] by [linux_user] returns, [None] when the query raises. *)
Variable query_users : string -> option (list (option scalar)).

(** The source's two [RuntimeError] messages are in Japanese; here they
    are paraphrased. *)
(** [config.get("user_id")] *)
Definition config_user_id (cfg : config) : scalar := opt_str (c_user_id cfg).

Definition resolve_user_id (cfg : config) : res scalar :=
  if truthy (config_user_id cfg) then Ok (config_user_id cfg) else
  match query_users (c_user cfg) with
  | None => Raise (QueueError "users" "select")
  | Some [] => Raise (RuntimeError "no users row for linux_user")
  | Some (row :: _) =>
      let user_id := odflt SNone row in
      if negb (truthy user_id) then Raise (RuntimeError "users.user_id is empty")
      else Ok user_id
  end.

End Users.

(* ------------------------------------------------------------------ *)
(** ** Script inventory: [discover_scripts], [sync_scripts], sync timing *)

(** A row of the [scripts] table as [discover_scripts] builds it. *)
Record script_entry := {
  e_user_id : string;
  e_path : string;
  e_type : string;
  e_updated_at : string }.

Definition ends_with (suf s : string) : bool :=
  let n := String.length s in
  let k := String.length suf in
  Nat.leb k n && (String.substring (n - k) k s =? suf).

(** [p.relative_to(base)] ([None]: [ValueError]). *)
Fixpoint relative_to (base p : path) : option path :=
  match base, p with
  | [], _ => Some p
  | b :: bs, q :: qs => if b =? q then relative_to bs qs else None
  | _ :: _, [] => None
  end.

Fixpoint keep_some {A} (l : list (option A)) : list A :=
  match l with
  | [] => []
  | Some a :: l' => a :: keep_some l'
  | None :: l' => keep_some l'
  end.

(** One step of [list.sort(key=lambda item: item["path"])]: [x] goes
    after every element whose key is not greater, so that sorting by
    successive insertion is stable, as Python's sort is. *)
Fixpoint insert_by_path (x : script_entry) (l : list script_entry) : list script_entry :=
  match l with
  | [] => [x]
  | y :: l' => if String.ltb (e_path x) (e_path y) then x :: y :: l'
               else y :: insert_by_path x l'
  end.

Definition sort_by_path (l : list script_entry) : list script_entry :=
  fold_left (fun acc x => insert_by_path x acc) l [].

Section Inventory.

(** [HOME], the entries [HOME.rglob] walks (absolute paths below [HOME],
    in walk order), [Path.is_file], and what [now_utc_iso()] returns when
    the row of a path is built (it is called once per row). *)
Variable HOME : path.
Variable walk : list path.
Variable is_file : path -> bool.
Variable now : path -> string.

(** [HOME.rglob(pattern)] for a pattern ["*" ++ suf]: the walked entries
    whose name matches; [fnmatch] is case-sensitive on POSIX and
    pathlib's [*] also matches a leading dot. *)
Definition rglob (pattern : string) : list path :=
  let suf := String.substring 1 (String.length pattern - 1) pattern in
  filter (fun p => ends_with suf (name p)) walk.

Definition discover_entry (user_id : string) (p : path) : option script_entry :=
  if negb (is_file p) then None
  else if should_skip p then None
  else match relative_to HOME p with
       | None => None
       | Some rel => Some {| e_user_id := user_id; e_path := String.concat "/" rel;
                             e_type := lstrip_dots (suffix p); e_updated_at := now p |}
       end.

Definition discover_scripts (user_id : string) : list script_entry :=
  sort_by_path
    (flat_map (fun pattern => keep_some (map (discover_entry user_id) (rglob pattern)))
       ["*.py"; "*.ipynb"]).

End Inventory.

Section Sync.

(** Whether the [delete] and the [insert] on [scripts] go through. *)
Variable delete_ok : bool.
Variable insert_ok : bool.

(** [sync_scripts] on the rows of the [scripts] table. *)
Definition sync_scripts (user_id : string) (scripts : list script_entry)
    (table : list script_entry) : res unit * list script_entry :=
  if negb delete_ok then (Raise (QueueError "scripts" "delete"), table) else
  let table1 := filter (fun r => negb (e_user_id r =? user_id)) table in
  match scripts with
  | [] => (Ok tt, table1)
  | _ :: _ => if insert_ok then (Ok tt, app table1 scripts)
              else (Raise (QueueError "scripts" "insert"), table1)
  end.

End Sync.

(** A [datetime]: instant in microseconds since the epoch (UTC) and
    whether it carries a UTC offset. *)
Record datetime := { dt_micros : Z; dt_aware : bool }.

Definition SYNC_STATE_FILE (HOME : path) : path := app (LOG_ROOT HOME) ["last_sync.txt"].

(** How [record_sync_time]'s [mkdir] and [write_text] end: they go
    through; they fail before the file is opened ([mkdir] or [open]
    raising); or [open("w")] truncated the file and the write then failed,
    leaving [written] in it. *)
Inductive write_outcome := WriteOk | WriteNotOpened | WriteTruncated (written : string).

(** [timedelta(minutes=m)] raises [OverflowError] once [m // 1440], its
    number of days, exceeds [999999999]. *)
Definition TIMEDELTA_MAX_MINUTES : Z := 1440 * 1000000000.

Section SyncTime.

Variable HOME : path.
Variable unreadable : path -> bool.
(** [datetime.fromisoformat] ([None]: [ValueError]), [datetime.now(timezone.utc)],
    [now_utc_iso()], and how [mkdir] and [write_text] in
    [record_sync_time] end. *)
Variable fromisoformat : string -> option datetime.
Variable now_dt : Z.
Variable now_iso : string.
Variable record_out : write_outcome.

(** [now - last] is evaluated first: subtracting a naive from an aware
    [datetime] raises [TypeError]; then [timedelta(minutes=interval_min)]
    may raise [OverflowError].  Both are outside the [try] and are carried
    by [StageError]. *)
Definition should_sync_scripts (interval_min : Z) : M bool :=
  fun w =>
    if (interval_min <=? 0)%Z then (Ok true, w) else
    match file_status_of unreadable w (SYNC_STATE_FILE HOME) with
    | FMissing => (Ok true, w)
    | FUnreadable => (Ok true, w)
    | FText c =>
        match fromisoformat (py_strip c) with
        | None => (Ok true, w)
        | Some last =>
            if dt_aware last
            then if (TIMEDELTA_MAX_MINUTES <=? interval_min)%Z
                 then (Raise (StageError "OverflowError: days must have magnitude <= 999999999"), w)
                 else (Ok (interval_min * 60 * 1000000 <=? now_dt - dt_micros last)%Z, w)
            else (Raise (StageError "TypeError: can't subtract offset-naive and offset-aware datetimes"), w)
        end
    end.

Definition record_sync_time : M unit :=
  try_except (match record_out with
              | WriteOk => write_text (SYNC_STATE_FILE HOME) now_iso
              | WriteNotOpened => raise (StageError "OSError")
              | WriteTruncated written =>
                  write_text (SYNC_STATE_FILE HOME) written ;; raise (StageError "OSError")
              end)
             (fun _ => ret tt).

End SyncTime.

(* ------------------------------------------------------------------ *)
(** ** Auxiliary definitions for the properties and sample inputs *)

Definition plain_char (c : ascii) : bool :=
  negb (Shlex.whitespace c) && negb (Shlex.is_quote c) && negb (Shlex.is_escape c).

Fixpoint all_plain (s : string) : bool :=
  match s with
  | EmptyString => true
  | String c s' => plain_char c && all_plain s'
  end.

Definition SP : string := " ".

Definition is_spawn (e : event) : bool :=
  match e with EvSpawn _ _ => true | _ => false end.

(** [m] only adds events to the trace, and none of them is a spawn. *)
Definition no_spawn {A} (m : M A) : Prop :=
  forall w r w', m w = (r, w') ->
  exists new, trace w' = app new (trace w) /\ forallb (fun e => negb (is_spawn e)) new = true.

Definition job_final_fields (now : string) (P : dict) (so se : path) (status : string)
    (retcode : scalar) (stdout_tail stderr_tail : option string) : Prop :=
  dget P "status" = Some (SStr status) /\ dget P "finished_at" = Some (SStr now) /\
  dget P "retcode" = Some retcode /\
  dget P "stdout_path" = Some (SStr (to_str so)) /\ dget P "stderr_path" = Some (SStr (to_str se)) /\
  dget P "stdout_tail" = Some (opt_str stdout_tail) /\ dget P "stderr_tail" = Some (opt_str stderr_tail).

Definition job_stdout_path (HOME : path) (j : job) : path :=
  app (join (LOG_ROOT HOME) (py_str (job_id_of j))) ["stdout.log"].

Definition job_stderr_path (HOME : path) (j : job) : path :=
  app (join (LOG_ROOT HOME) (py_str (job_id_of j))) ["stderr.log"].

Definition use_job_id_of (j : job) : bool :=
  match f_job_id j with Some _ => true | None => false end.

(** The [script_row], [script_path] and [script_type] that [run_job]
    computes for a job, and the job once [job["script_path"]] is set. *)
Definition job_script_row qs (user_id : string) (j : job) : option script_row :=
  if is_none (f_script_id j) then None else fetch_script qs (f_script_id j) user_id.

Definition job_script_path qs (user_id : string) (j : job) : string :=
  or_str (match job_script_row qs user_id j with Some r => row_path r | None => None end)
         (or_str (f_script_path j) "").

Definition job_script_type qs (user_id : string) (j : job) : string :=
  or_str (match job_script_row qs user_id j with Some r => row_type r | None => None end)
         (lstrip_dots (suffix (parts (job_script_path qs user_id j)))).

Definition job_with_path (j : job) (sp : string) : job :=
  {| f_job_id := f_job_id j; f_id := f_id j; f_script_id := f_script_id j;
     f_script_path := Some sp; f_args := f_args j |}.

Definition job_output_nb (HOME : path) (j : job) : path :=
  app (join (LOG_ROOT HOME) (py_str (job_id_of j))) ["output.ipynb"].

Definition RUNNING_PAYLOAD (now : string) : dict :=
  [("status", SStr "running"); ("started_at", SStr now)].

(** [session.get("session_id") or session.get("id")] *)
Definition session_id_of (s : session) : scalar :=
  py_or (odflt SNone (s_session_id s)) (odflt SNone (s_id s)).

(** [Path.resolve] on a tree without symbolic links: [..] drops the
    previous component. *)
Fixpoint lexical_resolve (p : path) (acc : list string) : path :=
  match p with
  | [] => rev acc
  | c :: r => if c =? ".." then lexical_resolve r (tl acc) else lexical_resolve r (c :: acc)
  end.

(** A home directory with [a.py] and [nb.ipynb], and sample jobs. *)
Definition ex_HOME : path := ["home"; "u"].

Definition ex_resolve (p : path) : path := lexical_resolve p [].

Definition ex_exists (p : path) : bool :=
  existsb (fun q => if list_eq_dec string_dec p q then true else false)
    [["home"; "u"; "nb.ipynb"]; ["home"; "u"; "a.py"]].

Definition ex_w0 : world := {| files := []; trace := [] |}.

Definition ex_py_job : job :=
  {| f_job_id := Some (SInt 5); f_id := None; f_script_id := SNone;
     f_script_path := Some "a.py"; f_args := AList [SStr "x"] |}.

Definition ex_run_py (spawn : list string -> path -> launch) : res unit * world :=
  run_job ex_HOME ex_resolve ex_exists (fun _ => false) (fun _ _ _ => None)
    (fun _ _ _ _ => true) spawn "NOW" ex_py_job "uid" ex_w0.

Definition ex_spawn_ok (_ : list string) (_ : path) : launch := Launched 0 "ok" "".

Definition is_validate (e : event) : bool :=
  match e with EvValidate _ _ => true | _ => false end.

Definition ex_noid_job : job :=
  {| f_job_id := None; f_id := None; f_script_id := SInt 7;
     f_script_path := None; f_args := ANone |}.

Definition ex_lost_job : job :=
  {| f_job_id := Some (SInt 9); f_id := None; f_script_id := SInt 7;
     f_script_path := None; f_args := ANone |}.

Definition ex_run_lost : res unit * world :=
  run_job ex_HOME ex_resolve ex_exists (fun _ => false) (fun _ _ _ => None)
    (fun _ _ _ _ => true) ex_spawn_ok "NOW" ex_lost_job "uid" ex_w0.


Definition ex_nb_job : job :=
  {| f_job_id := Some (SInt 5); f_id := None; f_script_id := SNone;
     f_script_path := Some "nb.ipynb"; f_args := AList [SStr "x"] |}.

Definition ex_spawn_quiet (_ : list string) (_ : path) : launch := Launched 0 "" "".

Definition ex_run_nb : res unit * world :=
  run_job ex_HOME ex_resolve ex_exists (fun _ => false) (fun _ _ _ => None)
    (fun _ _ _ _ => true) ex_spawn_quiet "NOW" ex_nb_job "uid" ex_w0.

Definition ex_warning : string := "Args are ignored for ipynb jobs." ++ NL.

Definition ex_session : session := {| s_session_id := Some (SInt 3); s_id := None |}.

Definition ex_urandom (n : nat) : list Z := repeat 171%Z n.

Definition ex_run_session : res unit * world :=
  handle_jupyter_sessions (fun _ _ _ _ => true) "NOW" (fun _ => Some [ex_session])
    (fun _ => ServerStarted 42) 1234%Z ex_urandom 8888%Z "127.0.0.1" false "uid" ex_w0.

(** The variables [load_config] requires, and the values that turn
    [JUPYTER_LEGACY] on. *)
Definition required_ok (getenv : string -> option string) (n : string) : bool :=
  match getenv n with Some v => negb (v =? "") | None => false end.

Definition REQUIRED_ENV : list string :=
  ["LAB_EMAIL"; "LAB_USER"; "SUPABASE_URL"; "SUPABASE_SERVICE_KEY"].

Definition legacy_values : list string := ["1"; "true"; "yes"].

(** Script rows ordered by path, and the rows of [scripts] that belong,
    or do not belong, to a user. *)
Definition path_le (a b : script_entry) : Prop := String.leb (e_path a) (e_path b) = true.

Definition rows_of (user_id : string) (table : list script_entry) : list script_entry :=
  filter (fun r => e_user_id r =? user_id) table.

Definition rows_not_of (user_id : string) (table : list script_entry) : list script_entry :=
  filter (fun r => negb (e_user_id r =? user_id)) table.

(** A [.env] with the required variables and [JUPYTER_LEGACY=True], and
    one whose [SUPABASE_URL] is empty. *)
Definition ex_env (n : string) : option string :=
  if n =? "LAB_EMAIL" then Some "me@lab.example"
  else if n =? "LAB_USER" then Some "u"
  else if n =? "SUPABASE_URL" then Some "https://db.example"
  else if n =? "SUPABASE_SERVICE_KEY" then Some "key"
  else if n =? "JUPYTER_LEGACY" then Some "True"
  else None.

Definition ex_env_nourl (n : string) : option string :=
  if n =? "SUPABASE_URL" then Some "" else ex_env n.



(** A walk with two scripts and one under a skipped directory, and a
    [scripts] table with a row of another user and a stale row. *)
Definition ex_walk : list path :=
  [["home"; "u"; "b.py"]; ["home"; "u"; ".venv"; "c.py"]; ["home"; "u"; "a.ipynb"];
   ["home"; "u"; "notes.txt"]].

Definition ex_table : list script_entry :=
  [{| e_user_id := "other"; e_path := "x.py"; e_type := "py"; e_updated_at := "T" |};
   {| e_user_id := "uid"; e_path := "old.py"; e_type := "py"; e_updated_at := "T" |}].

Definition ex_sync : res unit * list script_entry :=
  sync_scripts true true "uid" (discover_scripts ex_HOME ex_walk (fun _ => true) (fun _ => "NOW") "uid")
    ex_table.

(** [fromisoformat] on two sample timestamps, one aware and one naive. *)
Definition ex_fromiso (s : string) : option datetime :=
  if s =? "2026-01-01T00:00:00+00:00" then Some {| dt_micros := 0; dt_aware := true |}
  else if s =? "2026-01-01T00:00:00" then Some {| dt_micros := 0; dt_aware := false |}
  else None.

Definition ex_record : res unit * world :=
  record_sync_time ex_HOME "2026-01-01T00:00:00+00:00" WriteOk ex_w0.





Definition ex_bad_job : job :=
  {| f_job_id := Some (SInt 4); f_id := None; f_script_id := SNone;
     f_script_path := Some "a.py"; f_args := AStr "'x" |}.

Definition ex_main (query_jobs : string -> option (list job)) : res Z * world :=
  main ex_HOME ex_resolve ex_exists (fun _ => false) (fun _ _ _ => None) (fun _ _ _ _ => true)
    ex_spawn_ok "NOW" (fun _ => Some [ex_session]) (fun _ => ServerStarted 42) 1234%Z
    ex_urandom 8888%Z "127.0.0.1" false true true (Ok "uid") (fun _ => ret tt) query_jobs ex_w0.

(* ================================================================== *)
(** * Properties *)

(** ** Sample runs *)

Example format_args_ex1 :
  format_args (AStr "--a 1 --b 'two words'") = Ok ["--a"; "1"; "--b"; "two words"].
Proof. vm_compute. reflexivity. Qed.

Example format_args_ex2 :
  format_args (ADict [("a", SInt 1); ("b", SNone)]) = Ok ["--a"; "1"; "--b"].
Proof. vm_compute. reflexivity. Qed.

Example format_args_ex3 :
  format_args (AStr ("a" ++ String "034" "b c" ++ String "034" "  'x'\ y ''")) =
  Ok ["ab c"; "x y"; ""].
Proof. vm_compute. reflexivity. Qed.

Example format_args_ex4 :
  format_args (AList [SInt (-120); SBool true; SStr "x"; SInt 7; SInt 10]) =
  Ok ["-120"; "True"; "x"; "7"; "10"].
Proof. vm_compute. reflexivity. Qed.

Example splitlines_ex :
  splitlines ("a" ++ String "013" (String "010" "b") ++ NL ++ NL ++ "c" ++ NL) = ["a"; "b"; ""; "c"].
Proof. reflexivity. Qed.

Example suffix_ex : suffix ["x"; "nb.ipynb"] = ".ipynb" /\ suffix [".py"] = "" /\
  suffix ["a.b.py"] = ".py" /\ parts "a/./b//c/" = ["a"; "b"; "c"].
Proof. vm_compute. repeat split. Qed.

(* ------------------------------------------------------------------ *)
(** ** Sandbox resolver *)

Lemma mem_In (x : string) (l : list string) : mem x l = true <-> In x l.
Proof.
  unfold mem. rewrite existsb_exists. split.
  - intros [y [Hy Heq]]. apply String.eqb_eq in Heq. subst. exact Hy.
  - intros H. exists x. split; [exact H | apply String.eqb_refl].
Qed.

Lemma should_skip_In (p : path) :
  should_skip p = true <-> exists part, In part p /\ In part SKIP_DIRS.
Proof.
  unfold should_skip. rewrite existsb_exists.
  split; intros [x [H1 H2]]; exists x; split; try exact H1; apply mem_In; exact H2.
Qed.

Lemma is_prefix_app (base p : path) : is_prefix base p = true <-> exists rest, p = app base rest.
Proof.
  revert p. induction base as [|b bs IH]; intros p; simpl.
  - split; [intros _; exists p; reflexivity | intros _; reflexivity].
  - destruct p as [|q qs].
    + split; [discriminate | intros [rest H]; discriminate].
    + rewrite Bool.andb_true_iff, String.eqb_eq, IH. split.
      * intros [-> [rest ->]]. exists rest. reflexivity.
      * intros [rest H]. injection H as -> ->. split; [reflexivity | exists rest; reflexivity].
Qed.

Lemma join_relative (a : path) (s : string) : is_absolute s = false -> join a s = app a (parts s).
Proof. unfold join. intros ->. reflexivity. Qed.

Lemma bool_false_iff (b : bool) : b = false <-> b <> true.
Proof. destruct b; split; congruence. Qed.

(** C1: for every script path [p] and expected type [t],
    [ensure_allowed_script p t] rejects [p] exactly when one of the six
    checks fails ([p] absolute; the canonical resolution of [HOME / p] not
    under [HOME]; its suffix not [.py] or [.ipynb]; [t] non-empty and not
    the suffix without its dot; the file missing; a component in the skip
    set), and otherwise returns that canonical path, which lies under
    [HOME]. *)
Theorem ensure_allowed_script_exact (HOME : path) (resolve : path -> path)
    (exists_ : path -> bool) (p t : string) :
  let resolved := canonical HOME resolve p in
  ((exists e, ensure_allowed_script HOME resolve exists_ p t = Raise e) <->
     (is_absolute p = true
      \/ ~ (exists rest, resolved = app HOME rest)
      \/ ~ In (suffix resolved) ALLOWED_SUFFIXES
      \/ (t <> "" /\ lstrip_dots (suffix resolved) <> t)
      \/ exists_ resolved = false
      \/ (exists part, In part resolved /\ In part SKIP_DIRS)))
  /\ (forall r, ensure_allowed_script HOME resolve exists_ p t = Ok r ->
        r = resolved /\ exists rest, r = app HOME rest).
Proof.
  intros resolved. unfold ensure_allowed_script.
  destruct (is_absolute p) eqn:Habs.
  { split; [split; [intros _; left; reflexivity | intros _; eexists; reflexivity] | discriminate]. }
  rewrite join_relative by exact Habs. fold (canonical HOME resolve p). fold resolved.
  rewrite <- is_prefix_app, <- mem_In, <- should_skip_In, <- !bool_false_iff.
  assert (Ht : forall a b : string, a <> b <-> (a =? b) = false).
  { intros a b. rewrite bool_false_iff, String.eqb_eq. reflexivity. }
  rewrite !Ht.
  destruct (is_prefix HOME resolved) eqn:Hpre; cbn [negb andb];
    [| split; [split; [intros _; right; left; reflexivity | intros _; eexists; reflexivity] | discriminate]].
  destruct (mem (suffix resolved) ALLOWED_SUFFIXES) eqn:Hmem; cbn [negb andb];
    [| split; [split; [intros _; right; right; left; reflexivity | intros _; eexists; reflexivity] | discriminate]].
  destruct (t =? "") eqn:Hte; destruct (lstrip_dots (suffix resolved) =? t) eqn:Hst; cbn [negb andb];
    try (split; [split; [intros _; right; right; right; left; split; reflexivity
                        | intros _; eexists; reflexivity] | discriminate]).
  all: destruct (exists_ resolved) eqn:Hex; cbn [negb andb];
    [| split; [split; [intros _; do 4 right; left; reflexivity | intros _; eexists; reflexivity] | discriminate]].
  all: destruct (should_skip resolved) eqn:Hsk; cbn [negb andb];
    [ split; [split; [intros _; do 5 right; reflexivity | intros _; eexists; reflexivity] | discriminate]
    | split;
      [ split; [intros [e He]; discriminate | intros H; exfalso; intuition congruence]
      | intros r Hr; injection Hr as <-; split; [reflexivity | apply is_prefix_app; exact Hpre]]].
Qed.

(* ------------------------------------------------------------------ *)
(** ** Argument formatting *)

Lemma str_app_assoc (a b c : string) : (a ++ b) ++ c = a ++ (b ++ c).
Proof. induction a as [|x a IH]; simpl; [reflexivity | rewrite IH; reflexivity]. Qed.

Lemma str_app_nil_r (a : string) : a ++ "" = a.
Proof. induction a as [|x a IH]; simpl; [reflexivity | rewrite IH; reflexivity]. Qed.

(** The tokens already emitted are carried through unchanged. *)
Lemma lex_acc (s : string) : forall st tok quoted esc acc,
  Shlex.lex st tok quoted esc acc s =
  option_map (fun l => app (rev acc) l) (Shlex.lex st tok quoted esc [] s).
Proof.
  induction s as [|c rest IH]; intros st tok quoted esc acc; simpl.
  - repeat (match goal with |- context [if ?b then _ else _] => destruct b end);
      simpl; rewrite ?app_nil_r; reflexivity.
  - repeat (match goal with |- context [if ?b then _ else _] => destruct b end);
      rewrite ?(IH _ _ _ _ (_ :: acc)), ?(IH _ _ _ _ [_]), ?(IH _ _ _ _ acc);
      try reflexivity;
      destruct (Shlex.lex _ _ _ _ [] rest); simpl; rewrite <- ?app_assoc; reflexivity.
Qed.

Lemma lex_word (w : string) : forall tok quoted esc rest,
  all_plain w = true ->
  Shlex.lex "a" tok quoted esc [] (w ++ rest) = Shlex.lex "a" (tok ++ w) quoted esc [] rest.
Proof.
  induction w as [|c w IH]; intros tok quoted esc rest Hw; simpl.
  - rewrite str_app_nil_r. reflexivity.
  - simpl in Hw. apply Bool.andb_true_iff in Hw as [Hc Hw].
    unfold plain_char in Hc. apply Bool.andb_true_iff in Hc as [Hc He].
    apply Bool.andb_true_iff in Hc as [Hws Hq].
    apply Bool.negb_true_iff in Hws, Hq, He.
    rewrite Hws, Hq, He. simpl.
    rewrite IH by exact Hw. rewrite str_app_assoc. reflexivity.
Qed.

Lemma split_words_cons (w : string) (rest : string) :
  w <> "" -> all_plain w = true ->
  Shlex.lex " " "" false " " [] (w ++ SP ++ rest) =
  option_map (cons w) (Shlex.lex " " "" false " " [] rest).
Proof.
  destruct w as [|c w]; [congruence|]. intros _ Hw.
  simpl in Hw. apply Bool.andb_true_iff in Hw as [Hc Hw].
  unfold plain_char in Hc. apply Bool.andb_true_iff in Hc as [Hc He].
  apply Bool.andb_true_iff in Hc as [Hws Hq].
  apply Bool.negb_true_iff in Hws, Hq, He.
  simpl. rewrite Hws, He, Hq. simpl. rewrite lex_word by exact Hw. simpl.
  rewrite lex_acc. reflexivity.
Qed.

Lemma split_word (w : string) :
  w <> "" -> all_plain w = true -> Shlex.split w = Some [w].
Proof.
  destruct w as [|c w]; [congruence|]. intros _ Hw. unfold Shlex.split.
  simpl in Hw. apply Bool.andb_true_iff in Hw as [Hc Hw].
  unfold plain_char in Hc. apply Bool.andb_true_iff in Hc as [Hc He].
  apply Bool.andb_true_iff in Hc as [Hws Hq].
  apply Bool.negb_true_iff in Hws, Hq, He.
  simpl. rewrite Hws, He, Hq. simpl.
  rewrite <- (str_app_nil_r w) at 1. rewrite lex_word by exact Hw. simpl.
  destruct (String c w =? "") eqn:E; [discriminate|]. simpl. reflexivity.
Qed.

(** Space-separated plain words tokenize to themselves. *)
Lemma split_plain_words (ws : list string) :
  ws <> [] -> Forall (fun w => w <> "" /\ all_plain w = true) ws ->
  Shlex.split (String.concat SP ws) = Some ws.
Proof.
  induction ws as [|w ws IH]; [congruence|]. intros _ Hall.
  inversion Hall as [|? ? [Hne Hp] Hrest]; subst.
  destruct ws as [|w' ws'].
  - simpl. apply split_word; assumption.
  - change (String.concat SP (w :: w' :: ws')) with (w ++ SP ++ String.concat SP (w' :: ws')).
    unfold Shlex.split in *. rewrite split_words_cons by assumption.
    rewrite IH by (discriminate || exact Hrest). reflexivity.
Qed.

(** C2 (as stated, refuted): a boolean value in a mapping does not emit
    only its flag; [{"a": True}] gives [["--a", "True"]], and an empty
    string value gives [["--a", ""]]. *)
Lemma format_args_bool_value_cex :
  format_args (ADict [("a", SBool true)]) = Ok ["--a"; "True"] /\
  format_args (ADict [("a", SBool true)]) <> Ok ["--a"] /\
  format_args (ADict [("a", SStr "")]) = Ok ["--a"; ""].
Proof. vm_compute. split; [reflexivity | split; [discriminate | reflexivity]]. Qed.

(** C2 (amended): a sequence of scalars maps to their [str] in order; a
    mapping maps, entry by entry in insertion order, to ["--name"]
    followed by [str(value)], where only a null value emits the flag
    alone (booleans emit ["True"]/["False"]); a string is split by
    [shlex.split]: space-separated plain words give themselves, and
    ["--a 1 --b 'two words'"] gives [["--a", "1", "--b", "two words"]]. *)
Theorem format_args_shapes :
  (forall xs, format_args (AList xs) = Ok (map py_str xs)) /\
  format_args (ADict []) = Ok [] /\
  (forall key value rest tail,
     format_args (ADict rest) = Ok tail ->
     format_args (ADict ((key, value) :: rest)) =
     Ok (("--" ++ key) :: app (if is_none value then [] else [py_str value]) tail)) /\
  (forall key b, format_args (ADict [(key, SBool b)]) =
                 Ok [("--" ++ key); if b then "True" else "False"]) /\
  format_args (ADict [("a", SInt 1); ("b", SNone)]) = Ok ["--a"; "1"; "--b"] /\
  (forall ws, ws <> [] -> Forall (fun w => w <> "" /\ all_plain w = true) ws ->
     format_args (AStr (String.concat SP ws)) = Ok ws) /\
  format_args (AStr "--a 1 --b 'two words'") = Ok ["--a"; "1"; "--b"; "two words"].
Proof.
  split; [reflexivity|]. split; [reflexivity|].
  split.
  { intros key value rest tail H. simpl in H |- *. injection H as <-.
    destruct value; reflexivity. }
  split; [intros key []; reflexivity|].
  split; [vm_compute; reflexivity|].
  split; [| vm_compute; reflexivity].
  intros ws Hne Hall. simpl. rewrite split_plain_words by assumption. reflexivity.
Qed.

(* ------------------------------------------------------------------ *)
(** ** Log tails *)

(** C6 (as stated, refuted): an existing, readable, empty log has zero
    lines, and its tail is the empty string, not null. *)
Lemma get_tail_empty_file_cex : get_tail (FText "") 20 = Some "" /\ get_tail (FText "") 20 <> None.
Proof. split; [reflexivity | discriminate]. Qed.

(** C6 (amended): the tail is null exactly when the log is missing or
    unreadable; otherwise it is the log's lines ([str.splitlines]) joined
    with newlines, keeping the last [min 20 n] of its [n] lines: the last
    20 when there are more than 20, all of them otherwise (the empty
    string for a file with no lines). *)
Theorem get_tail_last_lines :
  (forall f, get_tail f 20 = None <-> f = FMissing \/ f = FUnreadable) /\
  (forall contents,
     let lines := splitlines contents in
     exists pre kept,
       lines = app pre kept /\
       List.length kept = Nat.min 20 (List.length lines) /\
       get_tail (FText contents) 20 = Some (String.concat NL kept)).
Proof.
  split.
  - intros [| |c]; simpl.
    + split; [intros _; left; reflexivity | reflexivity].
    + split; [intros _; right; reflexivity | reflexivity].
    + destruct (Nat.leb _ _); split; (discriminate || intros [H|H]; discriminate).
  - intros contents lines. unfold get_tail. fold lines.
    destruct (Nat.leb (List.length lines) 20) eqn:Hle.
    + exists [], lines. apply Nat.leb_le in Hle.
      split; [reflexivity|]. split; [rewrite Nat.min_r by lia; reflexivity | reflexivity].
    + apply Nat.leb_gt in Hle.
      exists (firstn (List.length lines - 20) lines), (skipn (List.length lines - 20) lines).
      split; [symmetry; apply firstn_skipn|].
      split; [rewrite length_skipn, Nat.min_l by lia; lia | reflexivity].
Qed.

(* ------------------------------------------------------------------ *)
(** ** Queue write-back *)

(** The outcome of [update_loop] over two columns. *)
Lemma update_loop_two (qa : string -> string -> scalar -> dict -> bool)
    table c1 c2 id payload w r w' :
  update_loop qa table [c1; c2] id payload None w = (r, w') ->
  files w' = files w /\
  ((qa table c1 id payload = true /\ r = Ok tt /\
    trace w' = EvUpdate table c1 id payload true :: trace w)
   \/ (qa table c1 id payload = false /\ qa table c2 id payload = true /\ r = Ok tt /\
       trace w' = EvUpdate table c2 id payload true
                  :: EvUpdate table c1 id payload false :: trace w)
   \/ (qa table c1 id payload = false /\ qa table c2 id payload = false /\
       r = Raise (QueueError table c2) /\
       trace w' = EvUpdate table c2 id payload false
                  :: EvUpdate table c1 id payload false :: trace w)).
Proof.
  simpl. unfold bind, emit, raise.
  destruct (qa table c1 id payload) eqn:H1; [|destruct (qa table c2 id payload) eqn:H2];
    intros H; injection H as <- <-; simpl; (split; [reflexivity|]).
  - left. repeat split.
  - right; left. repeat split.
  - right; right. repeat split.
Qed.

(** C8: every job or session update is first attempted by the preferred
    identifier column, on failure by the alternate one, and when both fail
    the failure is raised to the caller: the call returns normally only
    after an attempt that succeeded. *)
Theorem update_fallback_never_dropped :
  (forall qa job_id payload use_job_id w r w',
     update_job qa job_id payload use_job_id w = (r, w') ->
     let c1 := if use_job_id then "job_id" else "id" in
     let c2 := if use_job_id then "id" else "job_id" in
     (qa "jobs" c1 job_id payload = true /\ r = Ok tt /\
      trace w' = EvUpdate "jobs" c1 job_id payload true :: trace w)
     \/ (qa "jobs" c1 job_id payload = false /\ qa "jobs" c2 job_id payload = true /\ r = Ok tt /\
         trace w' = EvUpdate "jobs" c2 job_id payload true
                    :: EvUpdate "jobs" c1 job_id payload false :: trace w)
     \/ (qa "jobs" c1 job_id payload = false /\ qa "jobs" c2 job_id payload = false /\
         r = Raise (QueueError "jobs" c2) /\
         trace w' = EvUpdate "jobs" c2 job_id payload false
                    :: EvUpdate "jobs" c1 job_id payload false :: trace w)) /\
  (forall qa session_id payload use_session_id w r w',
     update_session qa session_id payload use_session_id w = (r, w') ->
     let c1 := if use_session_id then "session_id" else "id" in
     let c2 := if use_session_id then "id" else "session_id" in
     (qa "jupyter_sessions" c1 session_id payload = true /\ r = Ok tt /\
      trace w' = EvUpdate "jupyter_sessions" c1 session_id payload true :: trace w)
     \/ (qa "jupyter_sessions" c1 session_id payload = false /\
         qa "jupyter_sessions" c2 session_id payload = true /\ r = Ok tt /\
         trace w' = EvUpdate "jupyter_sessions" c2 session_id payload true
                    :: EvUpdate "jupyter_sessions" c1 session_id payload false :: trace w)
     \/ (qa "jupyter_sessions" c1 session_id payload = false /\
         qa "jupyter_sessions" c2 session_id payload = false /\
         r = Raise (QueueError "jupyter_sessions" c2) /\
         trace w' = EvUpdate "jupyter_sessions" c2 session_id payload false
                    :: EvUpdate "jupyter_sessions" c1 session_id payload false :: trace w)).
Proof.
  split.
  - intros qa job_id payload use w r w' H. unfold update_job in H.
    destruct use; apply update_loop_two in H; apply H.
  - intros qa session_id payload use w r w' H. unfold update_session in H.
    destruct use; apply update_loop_two in H; apply H.
Qed.

(* ------------------------------------------------------------------ *)
(** ** Session allocation *)

Lemma hex_digit_inj (d1 d2 : Z) :
  (0 <= d1 < 16)%Z -> (0 <= d2 < 16)%Z -> hex_digit d1 = hex_digit d2 -> d1 = d2.
Proof.
  intros H1 H2 H. apply (f_equal nat_of_ascii) in H. unfold hex_digit in H.
  destruct (d1 <? 10)%Z eqn:E1, (d2 <? 10)%Z eqn:E2;
    rewrite ?Z.ltb_lt, ?Z.ltb_ge in E1, E2;
    rewrite !nat_ascii_embedding in H by lia; lia.
Qed.

Lemma hex_length (bs : list Z) : String.length (hex bs) = 2 * List.length bs.
Proof. induction bs as [|b bs IH]; simpl; [reflexivity | rewrite IH; lia]. Qed.

Lemma hex_inj (bs1 bs2 : list Z) :
  Forall (fun b => 0 <= b < 256)%Z bs1 -> Forall (fun b => 0 <= b < 256)%Z bs2 ->
  hex bs1 = hex bs2 -> bs1 = bs2.
Proof.
  revert bs2. induction bs1 as [|b1 bs1 IH]; intros [|b2 bs2] H1 H2 H; simpl in H;
    try discriminate; [reflexivity|].
  inversion H1 as [|? ? Hb1 Hr1]; inversion H2 as [|? ? Hb2 Hr2]; subst.
  injection H as Hhi Hlo Hrest.
  assert (Hd : forall b, (0 <= b < 256)%Z -> (0 <= b / 16 < 16)%Z /\ (0 <= b mod 16 < 16)%Z).
  { intros b Hb. split; [split; [apply Z.div_pos; lia | apply Z.div_lt_upper_bound; lia]
                       | apply Z.mod_pos_bound; lia]. }
  destruct (Hd b1 Hb1) as [Hq1 Hm1], (Hd b2 Hb2) as [Hq2 Hm2].
  apply hex_digit_inj in Hhi; [| assumption | assumption].
  apply hex_digit_inj in Hlo; [| assumption | assumption].
  f_equal; [| apply IH; assumption].
  rewrite (Z.div_mod b1 16), (Z.div_mod b2 16) by lia. rewrite Hhi, Hlo. reflexivity.
Qed.

Lemma update_loop_events (qa : string -> string -> scalar -> dict -> bool)
    table c1 c2 id payload w r w' :
  update_loop qa table [c1; c2] id payload None w = (r, w') ->
  files w' = files w /\
  exists new, trace w' = app new (trace w) /\ new <> [] /\
    forall e, In e new -> exists c ok, e = EvUpdate table c id payload ok.
Proof.
  intros H. apply update_loop_two in H as [Hf H]. split; [exact Hf|].
  destruct H as [(_ & _ & ->) | [(_ & _ & _ & ->) | (_ & _ & _ & ->)]].
  - exists [EvUpdate table c1 id payload true]. split; [reflexivity|]. split; [discriminate|].
    intros e [<-|[]]. eauto.
  - exists [EvUpdate table c2 id payload true; EvUpdate table c1 id payload false].
    split; [reflexivity|]. split; [discriminate|]. intros e [<-|[<-|[]]]; eauto.
  - exists [EvUpdate table c2 id payload false; EvUpdate table c1 id payload false].
    split; [reflexivity|]. split; [discriminate|]. intros e [<-|[<-|[]]]; eauto.
Qed.

Lemma update_session_events qa session_id payload use w r w' :
  update_session qa session_id payload use w = (r, w') ->
  files w' = files w /\
  exists new, trace w' = app new (trace w) /\ new <> [] /\
    forall e, In e new -> exists c ok, e = EvUpdate "jupyter_sessions" c session_id payload ok.
Proof. unfold update_session. destruct use; apply update_loop_events. Qed.

Lemma update_job_events qa job_id payload use w r w' :
  update_job qa job_id payload use w = (r, w') ->
  files w' = files w /\
  exists new, trace w' = app new (trace w) /\ new <> [] /\
    forall e, In e new -> exists c ok, e = EvUpdate "jobs" c job_id payload ok.
Proof. unfold update_job. destruct use; apply update_loop_events. Qed.

(** C9: the port of a session is [jupyter_base_port + getuid() mod 100]
    in every update that marks it running, so it is a function of the base
    port and the user identity, and identities with different residues
    modulo 100 get different ports; the token recorded with it is the hex
    encoding of 16 bytes of [os.urandom], 32 hex digits, and the encoding
    is injective on 16-byte strings, so the token carries the 128 bits of
    the random bytes. *)
Theorem session_port_and_token qa now query_sessions spawn_server getuid urandom
    base ip legacy user_id w r w' :
  handle_jupyter_sessions qa now query_sessions spawn_server getuid urandom base ip legacy
    user_id w = (r, w') ->
  List.length (urandom 16) = 16 ->
  (exists new, trace w' = app new (trace w) /\
     forall table c id P ok, In (EvUpdate table c id P ok) new ->
       dget P "status" = Some (SStr "running") ->
       dget P "port" = Some (SInt (base + getuid mod 100)) /\
       dget P "token" = Some (SStr (token_hex urandom 16))) /\
  String.length (token_hex urandom 16) = 32 /\
  (forall uid1 uid2, (uid1 mod 100 <> uid2 mod 100)%Z ->
     (base + uid1 mod 100 <> base + uid2 mod 100)%Z) /\
  (forall bs1 bs2, List.length bs1 = 16 -> List.length bs2 = 16 ->
     Forall (fun b => 0 <= b < 256)%Z bs1 -> Forall (fun b => 0 <= b < 256)%Z bs2 ->
     hex bs1 = hex bs2 -> bs1 = bs2).
Proof.
  intros H Hlen. split; [| split; [| split]].
  - unfold handle_jupyter_sessions, fetch_pending_session, bind, emit, ret, raise in H.
    destruct (query_sessions user_id) as [[|s ss]|]; cbn beta iota in H.
    1, 3: injection H as <- <-; exists [EvSelect "jupyter_sessions"];
          split; [reflexivity | intros table c id P ok [Hin|[]]; discriminate].
    match type of H with
    | context [update_session ?a ?b ?c ?d ?e] =>
        destruct (update_session a b c d e) as [r0 w0] eqn:E1
    end.
    apply update_session_events in E1 as [_ [new1 [Ht1 [_ Hev1]]]].
    simpl in Ht1.
    assert (Hstart : forall table c id P ok, In (EvUpdate table c id P ok) new1 ->
                     dget P "status" = Some (SStr "running") -> False).
    { intros table c id P ok Hin Hs. apply Hev1 in Hin as [c' [ok' Heq]].
      injection Heq as _ _ _ HP _. rewrite HP in Hs. discriminate. }
    destruct r0 as [[]|e].
    2: { injection H as <- <-. exists (app new1 [EvSelect "jupyter_sessions"]).
         split; [rewrite Ht1, <- app_assoc; reflexivity|].
         intros table c id P ok Hin Hs. apply in_app_or in Hin as [Hin|[Hin|[]]];
           [exact (False_rect _ (Hstart _ _ _ _ _ Hin Hs)) | discriminate]. }
    destruct (spawn_server _) as [pid|msg];
      apply update_session_events in H as [_ [new2 [Ht2 [_ Hev2]]]];
      exists (app new2 (app new1 [EvSelect "jupyter_sessions"]));
      (split; [rewrite Ht2, Ht1, <- !app_assoc; reflexivity|]);
      intros table c id P ok Hin Hs;
      (apply in_app_or in Hin as [Hin|Hin];
       [ apply Hev2 in Hin as [c' [ok' Heq]]; injection Heq as _ _ _ HP _; rewrite HP in Hs |- *
       | apply in_app_or in Hin as [Hin|[Hin|[]]];
         [ exact (False_rect _ (Hstart _ _ _ _ _ Hin Hs)) | discriminate ] ]).
    + split; reflexivity.
    + discriminate.
  - unfold token_hex. rewrite hex_length, Hlen. reflexivity.
  - intros uid1 uid2 Hne. lia.
  - intros bs1 bs2 _ _. apply hex_inj.
Qed.

(* ------------------------------------------------------------------ *)
(** ** The job controller *)

Create HintDb nospawn.

Lemma no_spawn_ret {A} (a : A) : no_spawn (ret a).
Proof. intros w r w' H. injection H as <- <-. exists []. split; reflexivity. Qed.

Lemma no_spawn_raise {A} (e : exc) : no_spawn (A := A) (raise e).
Proof. intros w r w' H. injection H as <- <-. exists []. split; reflexivity. Qed.

Lemma no_spawn_lift {A} (x : res A) : no_spawn (lift x).
Proof. intros w r w' H. injection H as <- <-. exists []. split; reflexivity. Qed.

Lemma no_spawn_emit (e : event) : is_spawn e = false -> no_spawn (emit e).
Proof.
  intros He w r w' H. injection H as <- <-. exists [e]. simpl. rewrite He. split; reflexivity.
Qed.

Lemma no_spawn_write_text p s : no_spawn (write_text p s).
Proof. intros w r w' H. injection H as <- <-. exists []. split; reflexivity. Qed.

Lemma no_spawn_append_text p s : no_spawn (append_text p s).
Proof. intros w r w' H. injection H as <- <-. exists []. split; reflexivity. Qed.

Lemma no_spawn_bind {A B} (m : M A) (k : A -> M B) :
  no_spawn m -> (forall a, no_spawn (k a)) -> no_spawn (bind m k).
Proof.
  intros Hm Hk w r w' H. unfold bind in H.
  destruct (m w) as [[a|e] w1] eqn:E; apply Hm in E as [n1 [T1 F1]].
  - apply Hk in H as [n2 [T2 F2]]. exists (app n2 n1).
    rewrite T2, T1, app_assoc, forallb_app, F1, F2. split; reflexivity.
  - injection H as <- <-. exists n1. split; assumption.
Qed.

Lemma no_spawn_try {A} (m : M A) (h : exc -> M A) :
  no_spawn m -> (forall e, no_spawn (h e)) -> no_spawn (try_except m h).
Proof.
  intros Hm Hh w r w' H. unfold try_except in H.
  destruct (m w) as [[a|e] w1] eqn:E; apply Hm in E as [n1 [T1 F1]].
  - injection H as <- <-. exists n1. split; assumption.
  - apply Hh in H as [n2 [T2 F2]]. exists (app n2 n1).
    rewrite T2, T1, app_assoc, forallb_app, F1, F2. split; reflexivity.
Qed.

Lemma no_spawn_update_loop qa table cols id payload le :
  no_spawn (update_loop qa table cols id payload le).
Proof.
  revert le. induction cols as [|c cs IH]; intros le; simpl.
  - destruct le; [apply no_spawn_raise | apply no_spawn_ret].
  - destruct (qa table c id payload).
    + apply no_spawn_emit. reflexivity.
    + apply no_spawn_bind; [apply no_spawn_emit; reflexivity | intros _; apply IH].
Qed.

Lemma no_spawn_update_job qa job_id payload use : no_spawn (update_job qa job_id payload use).
Proof. apply no_spawn_update_loop. Qed.

Lemma no_spawn_send_email j status retcode so se em :
  no_spawn (send_email j status retcode so se em).
Proof. apply no_spawn_emit. reflexivity. Qed.

Global Hint Resolve no_spawn_ret no_spawn_raise no_spawn_lift no_spawn_write_text
  no_spawn_append_text no_spawn_update_job no_spawn_send_email : nospawn.

Ltac no_spawn_auto :=
  repeat first
    [ apply no_spawn_bind; [| intros ?]
    | apply no_spawn_try; [| intros ?]
    | apply no_spawn_emit; reflexivity
    | solve [eauto with nospawn] ].

Lemma file_status_of_files unreadable w1 w2 p :
  files w1 = files w2 -> file_status_of unreadable w1 p = file_status_of unreadable w2 p.
Proof. unfold file_status_of. intros ->. reflexivity. Qed.

Lemma file_lookup_head (fs : list (path * string)) p c : file_lookup ((p, c) :: fs) p = Some c.
Proof. simpl. destruct (list_eq_dec string_dec p p); [reflexivity | congruence]. Qed.

Lemma app_split {A} (l : list A) (e : A) (t : list A) : app l (e :: t) = app (app l [e]) t.
Proof. rewrite <- app_assoc. reflexivity. Qed.

Lemma cons_app_split {A} (a : A) (l : list A) (e : A) (t : list A) :
  a :: app l (e :: t) = app (app (a :: l) [e]) t.
Proof. simpl. rewrite <- app_assoc. reflexivity. Qed.

Lemma spawn_unique (pre : list event) c d cmd cwd :
  forallb (fun e => negb (is_spawn e)) pre = true ->
  In (EvSpawn c d) (app pre [EvSpawn cmd cwd]) -> c = cmd /\ d = cwd.
Proof.
  intros Hpre Hin. apply in_app_or in Hin as [Hin|[Hin|[]]].
  - rewrite forallb_forall in Hpre. apply Hpre in Hin. discriminate.
  - injection Hin as -> ->. split; reflexivity.
Qed.

Lemma updates_no_spawn (l : list event) table id P :
  (forall e, In e l -> exists c ok, e = EvUpdate table c id P ok) ->
  forallb (fun e => negb (is_spawn e)) l = true.
Proof.
  intros H. apply forallb_forall. intros e He. apply H in He as [c [ok ->]]. reflexivity.
Qed.

Lemma execute_job_spec unreadable qa spawn now job_id use j cmd cwd so se w r w' :
  execute_job unreadable qa spawn now job_id use j cmd cwd so se w = (r, w') ->
  exists new, trace w' = app new (trace w) /\
    (forall c d, In (EvSpawn c d) new -> c = cmd /\ d = cwd) /\
    exists P, last_update new = Some P /\
      job_final_fields now P so se
        (match spawn cmd cwd with Launched rc _ _ => if (rc =? 0)%Z then "done" else "error"
                                | LaunchFailed _ => "error" end)
        (match spawn cmd cwd with Launched rc _ _ => SInt rc | LaunchFailed _ => SNone end)
        (get_tail (file_status_of unreadable w' so) 20)
        (get_tail (file_status_of unreadable w' se) 20) /\
      (forall msg, spawn cmd cwd = LaunchFailed msg ->
         exists before, file_lookup (files w') se = Some (before ++ "Failed to start job: " ++ msg ++ NL)).
Proof.
  intros H. unfold execute_job, bind, write_text, emit, append_text, get_tail_at, ret in H.
  cbn beta iota zeta in H.
  destruct (spawn cmd cwd) as [rc out err|msg] eqn:Hsp; cbn [files trace] in H;
  match type of H with
  | context [update_job ?a ?b ?c ?d ?e] => destruct (update_job a b c d e) as [r0 w0] eqn:Eu
  end;
  apply update_job_events in Eu as [Fu [nu [Tu [Hne Hu]]]];
  destruct nu as [|e0 nu]; try congruence;
  destruct (Hu e0 (or_introl eq_refl)) as [c0 [ok0 He0]]; subst e0;
  destruct r0 as [[]|e]; unfold send_email, emit in H; injection H as <- <-;
  cbn [files trace] in Tu, Fu |- *;
  match goal with
  | |- exists new, ?t = app new _ /\ _ => idtac
  end.
  all: rewrite Tu; (first [rewrite cons_app_split | rewrite app_split]);
       eexists; split; [reflexivity|].
  all: split;
    [ intros c d Hin; apply spawn_unique in Hin; [exact Hin|];
      pose proof (updates_no_spawn _ _ _ _ Hu) as Hns; simpl in Hns |- *; exact Hns | ].
  all: eexists; split; [reflexivity|].
  all: unfold job_final_fields, file_status_of; cbn [files trace]; rewrite Fu.
  all: split; [repeat split; reflexivity|].
  all: intros msg' Hm; try congruence.
  all: injection Hm as <-.
  all: rewrite !file_lookup_head; exists ""; reflexivity.
Qed.

Lemma no_spawn_use {A} (m : M A) w r w' :
  m w = (r, w') -> no_spawn m ->
  exists new, trace w' = app new (trace w) /\ forallb (fun e => negb (is_spawn e)) new = true.
Proof. intros H Hm. exact (Hm w r w' H). Qed.

Lemma bind_inv {A B} (m : M A) (k : A -> M B) w r w' :
  bind m k w = (r, w') ->
  (exists e, m w = (Raise e, w') /\ r = Raise e) \/
  (exists a w1, m w = (Ok a, w1) /\ k a w1 = (r, w')).
Proof.
  unfold bind. destruct (m w) as [[a|e] w1]; intros H.
  - right. exists a, w1. split; [reflexivity | exact H].
  - left. injection H as <- <-. exists e. split; reflexivity.
Qed.

Lemma bind_lift_ok {A B} (a : A) (k : A -> M B) : bind (lift (Ok a)) k = k a.
Proof. reflexivity. Qed.

Lemma bind_lift_raise {A B} (e : exc) (k : A -> M B) : bind (lift (Raise e)) k = raise e.
Proof. reflexivity. Qed.

(** A run of [run_job] either never spawns, or reaches [execute_job]
    after steps that do not spawn. *)
Lemma run_job_cases HOME resolve exists_ unreadable qs qa spawn now j user_id w r w' :
  run_job HOME resolve exists_ unreadable qs qa spawn now j user_id w = (r, w') ->
  (exists new, trace w' = app new (trace w) /\ forallb (fun e => negb (is_spawn e)) new = true) \/
  (exists w1 pre j' cmd full,
     trace w1 = app pre (trace w) /\ forallb (fun e => negb (is_spawn e)) pre = true /\
     execute_job unreadable qa spawn now (job_id_of j) (use_job_id_of j) j' cmd (parent full)
       (job_stdout_path HOME j) (job_stderr_path HOME j) w1 = (r, w')).
Proof.
  intros H. unfold run_job in H.
  destruct (format_args (f_args j)) as [args|e] eqn:Ef.
  2: { rewrite bind_lift_raise in H. left. apply (no_spawn_use _ _ _ _ H). no_spawn_auto. }
  rewrite bind_lift_ok in H. cbn beta zeta in H.
  unfold use_job_id_of, job_stdout_path, job_stderr_path.
  match type of H with (if ?b then _ else _) _ = _ => destruct b eqn:Hc end.
  { left. match type of H with (if ?b then _ else _) _ = _ => destruct b end;
      apply (no_spawn_use _ _ _ _ H); no_spawn_auto. }
  match type of H with (if ?b then _ else _) _ = _ => destruct b eqn:Hp end.
  { left. apply (no_spawn_use _ _ _ _ H); no_spawn_auto. }
  apply bind_inv in H as [[e [H1 ->]] | [o [w1 [H1 H2]]]].
  { left. apply (no_spawn_use _ _ _ _ H1). no_spawn_auto. }
  destruct (no_spawn_use _ _ _ _ H1 ltac:(no_spawn_auto)) as [n1 [T1 F1]].
  destruct o as [full|e].
  2: { left. destruct (no_spawn_use _ _ _ _ H2 ltac:(no_spawn_auto)) as [n2 [T2 F2]].
       exists (app n2 n1). rewrite T2, T1, app_assoc, forallb_app, F1, F2. split; reflexivity. }
  apply bind_inv in H2 as [[e [H2 ->]] | [u [w2 [H2 H3]]]].
  { left. destruct (no_spawn_use _ _ _ _ H2 ltac:(no_spawn_auto)) as [n2 [T2 F2]].
    exists (app n2 n1). rewrite T2, T1, app_assoc, forallb_app, F1, F2. split; reflexivity. }
  destruct (no_spawn_use _ _ _ _ H2 ltac:(no_spawn_auto)) as [n2 [T2 F2]].
  match type of H3 with (if ?b then _ else _) _ = _ => destruct b end.
  - cbn zeta in H3. right. eexists w2, (app n2 n1), _, _, full.
    split; [rewrite T2, T1, app_assoc; reflexivity|].
    split; [rewrite forallb_app, F1, F2; reflexivity | exact H3].
  - cbn zeta in H3. apply bind_inv in H3 as [[e [H3 ->]] | [u' [w3 [H3 H4]]]].
    + left. destruct (no_spawn_use _ _ _ _ H3 ltac:(destruct args; no_spawn_auto))
        as [n3 [T3 F3]].
      exists (app n3 (app n2 n1)). rewrite T3, T2, T1, !app_assoc, !forallb_app, F1, F2, F3.
      split; reflexivity.
    + destruct (no_spawn_use _ _ _ _ H3 ltac:(destruct args; no_spawn_auto)) as [n3 [T3 F3]].
      right. eexists w3, (app n3 (app n2 n1)), _, _, full.
      split; [rewrite T3, T2, T1, !app_assoc; reflexivity|].
      split; [rewrite !forallb_app, F1, F2, F3; reflexivity | exact H4].
Qed.

Lemma last_update_app (l l' : list event) P :
  last_update l = Some P -> last_update (app l l') = Some P.
Proof.
  induction l as [|e l IH]; simpl; [discriminate|].
  destruct e; auto.
Qed.

Lemma no_spawn_not_in (l : list event) cmd cwd :
  forallb (fun e => negb (is_spawn e)) l = true -> ~ In (EvSpawn cmd cwd) l.
Proof. intros H Hin. rewrite forallb_forall in H. apply H in Hin. discriminate. Qed.

(** C3: whenever a run of [run_job] reaches the Process Runner with some
    command and working directory, the last queue write of that run
    carries [status = done] exactly when the child exited with code 0
    ([error] otherwise and when [Popen] failed), [finished_at], the exit
    code ([null] when the child never started), both log paths as
    absolute strings and the tails of the logs as they are after the run;
    when [Popen] failed, the stderr log ends with the failure message,
    so the stderr tail is computed from a file that contains it. *)
Theorem run_job_finalize HOME resolve exists_ unreadable qs qa spawn now j user_id
    w r w' new cmd cwd :
  run_job HOME resolve exists_ unreadable qs qa spawn now j user_id w = (r, w') ->
  trace w' = app new (trace w) ->
  In (EvSpawn cmd cwd) new ->
  (exists P, last_update new = Some P /\
     job_final_fields now P (job_stdout_path HOME j) (job_stderr_path HOME j)
       (match spawn cmd cwd with
        | Launched rc _ _ => if (rc =? 0)%Z then "done" else "error"
        | LaunchFailed _ => "error" end)
       (match spawn cmd cwd with Launched rc _ _ => SInt rc | LaunchFailed _ => SNone end)
       (get_tail (file_status_of unreadable w' (job_stdout_path HOME j)) 20)
       (get_tail (file_status_of unreadable w' (job_stderr_path HOME j)) 20)) /\
  (forall msg, spawn cmd cwd = LaunchFailed msg ->
     exists before, file_lookup (files w') (job_stderr_path HOME j) =
                    Some (before ++ "Failed to start job: " ++ msg ++ NL)) /\
  String.get 0 (to_str (job_stdout_path HOME j)) = Some "/"%char /\
  String.get 0 (to_str (job_stderr_path HOME j)) = Some "/"%char.
Proof.
  intros H Ht Hin.
  apply run_job_cases in H as [[n [Tn Fn]] | (w1 & pre & j' & cmd0 & full & T1 & F1 & He)].
  - rewrite Ht in Tn. apply app_inv_tail in Tn. subst n.
    exfalso. exact (no_spawn_not_in _ _ _ Fn Hin).
  - apply execute_job_spec in He as (nx & Tx & Hsp & P & HP & Hfin & Hfail).
    rewrite Tx, T1, app_assoc in Ht. apply app_inv_tail in Ht. subst new.
    apply in_app_or in Hin as [Hin|Hin].
    2: { exfalso. exact (no_spawn_not_in _ _ _ F1 Hin). }
    destruct (Hsp _ _ Hin) as [-> ->].
    split; [exists P; split; [apply last_update_app; exact HP | exact Hfin]|].
    split; [exact Hfail | split; reflexivity].
Qed.

(* ------------------------------------------------------------------ *)
(** ** A concrete home directory for sample runs *)

Lemma run_job_finalize_witness :
  ex_run_py ex_spawn_ok = (fst (ex_run_py ex_spawn_ok), snd (ex_run_py ex_spawn_ok)) /\
  trace (snd (ex_run_py ex_spawn_ok)) = app (trace (snd (ex_run_py ex_spawn_ok))) (trace ex_w0) /\
  In (EvSpawn ["python"; "/home/u/a.py"; "x"] ["home"; "u"]) (trace (snd (ex_run_py ex_spawn_ok))) /\
  exists P, last_update (trace (snd (ex_run_py ex_spawn_ok))) = Some P /\
    dget P "status" = Some (SStr "done") /\ dget P "retcode" = Some (SInt 0).
Proof.
  assert (H1 : ex_run_py ex_spawn_ok = (fst (ex_run_py ex_spawn_ok), snd (ex_run_py ex_spawn_ok)))
    by (vm_compute; reflexivity).
  assert (H2 : trace (snd (ex_run_py ex_spawn_ok)) =
               app (trace (snd (ex_run_py ex_spawn_ok))) (trace ex_w0))
    by (vm_compute; reflexivity).
  assert (H3 : In (EvSpawn ["python"; "/home/u/a.py"; "x"] ["home"; "u"])
                  (trace (snd (ex_run_py ex_spawn_ok))))
    by (vm_compute; right; right; left; reflexivity).
  split; [exact H1 | split; [exact H2 | split; [exact H3 |]]].
  destruct (run_job_finalize ex_HOME ex_resolve ex_exists (fun _ => false) (fun _ _ _ => None)
              (fun _ _ _ _ => true) ex_spawn_ok "NOW" ex_py_job "uid" ex_w0
              (fst (ex_run_py ex_spawn_ok)) (snd (ex_run_py ex_spawn_ok))
              (trace (snd (ex_run_py ex_spawn_ok))) _ _ H1 H2 H3)
    as [[P [HP [Hs [_ [Hr _]]]]] _].
  exists P. split; [exact HP | split; [exact Hs | exact Hr]].
Defined.

Lemma write_text_inv p s w r w' :
  write_text p s w = (r, w') -> r = Ok tt /\ trace w' = trace w.
Proof. intros H. injection H as <- <-. split; reflexivity. Qed.

(** C4, as stated, fails for a job whose identifier is null under both
    fields: with script id 7 and no matching [scripts] row, [run_job]
    returns without touching the queue and without notifying. *)
Lemma run_job_script_not_found_noid_cex :
  run_job ex_HOME ex_resolve ex_exists (fun _ => false) (fun _ _ _ => None)
    (fun _ _ _ _ => true) ex_spawn_ok "NOW" ex_noid_job "uid" ex_w0 = (Ok tt, ex_w0) /\
  ~ (exists j s rc so se em,
       In (EvNotify j s rc so se em)
         (trace (snd (run_job ex_HOME ex_resolve ex_exists (fun _ => false) (fun _ _ _ => None)
                        (fun _ _ _ _ => true) ex_spawn_ok "NOW" ex_noid_job "uid" ex_w0)))).
Proof.
  split; [vm_compute; reflexivity|].
  vm_compute. intros (j & s & rc & so & se & em & []).
Qed.

(** C4 (amended): for a job whose args parse, whose script reference is
    non-null, whose [scripts] lookup finds no row and whose identifier is
    non-null, [run_job] never calls the Sandbox Resolver or the Process
    Runner, attempts a queue update with [status = error] and
    [stderr_tail = "script not found"], and, when that update goes
    through, calls the Notifier for the job with [status = error], a null
    return code and [error_message = "script not found"]. *)
Theorem run_job_script_not_found HOME resolve exists_ unreadable qs qa spawn now j user_id
    args w r w' :
  is_none (f_script_id j) = false ->
  fetch_script qs (f_script_id j) user_id = None ->
  format_args (f_args j) = Ok args ->
  is_none (job_id_of j) = false ->
  run_job HOME resolve exists_ unreadable qs qa spawn now j user_id w = (r, w') ->
  exists new, trace w' = app new (trace w) /\
    (forall e, In e new -> is_spawn e = false /\ is_validate e = false) /\
    (exists c ok P, In (EvUpdate "jobs" c (job_id_of j) P ok) new /\
       dget P "status" = Some (SStr "error") /\
       dget P "stderr_tail" = Some (SStr "script not found")) /\
    (r = Ok tt ->
       In (EvNotify j "error" SNone (to_str (job_stdout_path HOME j))
             (to_str (job_stderr_path HOME j)) (Some "script not found")) new).
Proof.
  intros Hs Hf Ha Hid H. unfold run_job in H.
  rewrite Ha, bind_lift_ok in H. cbn beta zeta in H.
  rewrite Hs, Hf, Hid in H. cbn [negb andb] in H.
  apply bind_inv in H as [[e [H1 _]] | [u [w1 [H1 H2]]]].
  { apply write_text_inv in H1 as [H1 _]. discriminate. }
  apply write_text_inv in H1 as [_ T1].
  apply bind_inv in H2 as [[e [H2 ->]] | [u' [w2 [H2 H3]]]].
  - apply update_job_events in H2 as [_ [n [Tn [Hne Hev]]]].
    exists n. split; [rewrite Tn, T1; reflexivity|].
    split; [intros e0 He0; apply Hev in He0 as [c [ok ->]]; split; reflexivity|].
    split; [|discriminate].
    destruct n as [|e0 n]; [congruence|].
    destruct (Hev e0 (or_introl eq_refl)) as [c [ok ->]].
    exists c, ok. eexists. split; [left; reflexivity | split; reflexivity].
  - apply update_job_events in H2 as [_ [n [Tn [Hne Hev]]]].
    unfold send_email, emit in H3. injection H3 as <- <-. cbn [trace].
    exists (EvNotify j "error" SNone (to_str (job_stdout_path HOME j))
              (to_str (job_stderr_path HOME j)) (Some "script not found") :: n).
    split; [rewrite Tn, T1; reflexivity|].
    split.
    { intros e0 [<-|He0]; [split; reflexivity|].
      apply Hev in He0 as [c [ok ->]]; split; reflexivity. }
    split; [|intros _; left; reflexivity].
    destruct n as [|e0 n]; [congruence|].
    destruct (Hev e0 (or_introl eq_refl)) as [c [ok ->]].
    exists c, ok. eexists. split; [right; left; reflexivity | split; reflexivity].
Qed.

Lemma run_job_script_not_found_witness :
  is_none (f_script_id ex_lost_job) = false /\
  fetch_script (fun _ _ _ => None) (f_script_id ex_lost_job) "uid" = None /\
  format_args (f_args ex_lost_job) = Ok [] /\
  is_none (job_id_of ex_lost_job) = false /\
  ex_run_lost = (fst ex_run_lost, snd ex_run_lost) /\
  fst ex_run_lost = Ok tt /\
  exists new, trace (snd ex_run_lost) = app new (trace ex_w0) /\
    In (EvNotify ex_lost_job "error" SNone (to_str (job_stdout_path ex_HOME ex_lost_job))
          (to_str (job_stderr_path ex_HOME ex_lost_job)) (Some "script not found")) new.
Proof.
  assert (H1 : is_none (f_script_id ex_lost_job) = false) by reflexivity.
  assert (H2 : fetch_script (fun _ _ _ => None) (f_script_id ex_lost_job) "uid" = None)
    by reflexivity.
  assert (H3 : format_args (f_args ex_lost_job) = Ok []) by reflexivity.
  assert (H4 : is_none (job_id_of ex_lost_job) = false) by reflexivity.
  assert (H5 : ex_run_lost = (fst ex_run_lost, snd ex_run_lost)) by (vm_compute; reflexivity).
  assert (H6 : fst ex_run_lost = Ok tt) by (vm_compute; reflexivity).
  do 6 (split; [assumption|]).
  destruct (run_job_script_not_found ex_HOME ex_resolve ex_exists (fun _ => false)
              (fun _ _ _ => None) (fun _ _ _ _ => true) ex_spawn_ok "NOW" ex_lost_job "uid"
              [] ex_w0 (fst ex_run_lost) (snd ex_run_lost) H1 H2 H3 H4 H5)
    as (new & Tn & _ & _ & Hn).
  exists new. split; [exact Tn | exact (Hn H6)].
Defined.

Lemma format_args_raises_value_error raw e :
  format_args raw = Raise e -> exists msg, e = ValueError msg.
Proof.
  destruct raw; simpl; try discriminate.
  destruct (Shlex.split s); [discriminate|]. intros H. injection H as <-. eexists; reflexivity.
Qed.



(** C5 fails: a notebook job with args [["x"]] runs the nbconvert command
    without ["x"], and the warning is appended to its stderr log
    (lines 389-390), but line 395 then opens the same log with ["w"],
    which truncates it; the child writes nothing to stderr, so the log
    the run leaves behind, and its recorded tail, are empty. *)
Theorem ipynb_warning_truncated :
  In (EvSpawn (build_nbconvert_command ["home"; "u"; "nb.ipynb"]
                 ["home"; "u"; "lab_job_logs"; "5"; "output.ipynb"]) ["home"; "u"])
     (trace (snd ex_run_nb)) /\
  In (job_stderr_path ex_HOME ex_nb_job, ex_warning) (files (snd ex_run_nb)) /\
  file_lookup (files (snd ex_run_nb)) (job_stderr_path ex_HOME ex_nb_job) = Some "" /\
  last_update (trace (snd ex_run_nb)) =
    Some [("status", SStr "done"); ("finished_at", SStr "NOW"); ("retcode", SInt 0);
          ("stdout_path", SStr "/home/u/lab_job_logs/5/stdout.log");
          ("stderr_path", SStr "/home/u/lab_job_logs/5/stderr.log");
          ("stdout_tail", SStr ""); ("stderr_tail", SStr "")].
Proof.
  vm_compute. split; [right; right; left; reflexivity|].
  split; [right; right; right; right; left; reflexivity|].
  split; reflexivity.
Qed.

(** C7 fails: once bootstrap succeeds, the inventory sync stage always
    lets [main] go on, but the job stage is not isolated from the session
    stage.  After the sync stage ends in [w1], if the [select] on [jobs]
    raises, [main] returns 1 at once; if [run_job] raises, [main] raises
    with it.  In both cases [handle_jupyter_sessions] is never called:
    nothing is added to the trace after the job stage. *)
Theorem main_job_stage_not_isolated HOME resolve exists_ unreadable qs qa spawn now
    query_sessions spawn_server getuid urandom base ip legacy sync_inventory query_jobs
    uid w :
  let main' := main HOME resolve exists_ unreadable qs qa spawn now query_sessions
                 spawn_server getuid urandom base ip legacy true true (Ok uid)
                 sync_inventory query_jobs in
  exists w1,
    try_except (sync_inventory uid) (fun _ => ret tt) w = (Ok tt, w1) /\
    (query_jobs uid = None ->
       main' w = (Ok 1%Z, {| files := files w1; trace := EvSelect "jobs" :: trace w1 |})) /\
    (forall j rest e w2, query_jobs uid = Some (j :: rest) ->
       run_job HOME resolve exists_ unreadable qs qa spawn now j uid
         {| files := files w1; trace := EvSelect "jobs" :: trace w1 |} = (Raise e, w2) ->
       main' w = (Raise e, w2)).
Proof.
  intros main'. subst main'.
  destruct (try_except (sync_inventory uid) (fun _ => ret tt) w) as [[[]|e] w1] eqn:Es.
  2: { exfalso. unfold try_except, ret in Es.
       destruct (sync_inventory uid w) as [[?|?] ?]; discriminate. }
  exists w1. split; [reflexivity|]. split.
  - intros Hq. unfold main. cbn [negb]. unfold bind at 1. rewrite Es.
    unfold bind, try_except, fetch_next_job, emit, ret, raise. rewrite Hq. reflexivity.
  - intros j0 rest e w2 Hq Hrun. unfold main. cbn [negb]. unfold bind at 1. rewrite Es.
    cbv [bind try_except fetch_next_job emit ret raise]. rewrite Hq. cbv beta iota.
    rewrite Hrun. reflexivity.
Qed.

Lemma main_job_stage_not_isolated_witness :
  (fun _ : string => @None (list job)) "uid" = None /\
  main ex_HOME ex_resolve ex_exists (fun _ => false) (fun _ _ _ => None) (fun _ _ _ _ => true)
    ex_spawn_ok "NOW" (fun _ => Some []) (fun _ => ServerStarted 1) 1000%Z
    (fun n => repeat 0%Z n) 8888%Z "127.0.0.1" false true true (Ok "uid")
    (fun _ => ret tt) (fun _ => None) ex_w0 =
  (Ok 1%Z, {| files := []; trace := [EvSelect "jobs"] |}).
Proof.
  split; [reflexivity|].
  destruct (main_job_stage_not_isolated ex_HOME ex_resolve ex_exists (fun _ => false)
              (fun _ _ _ => None) (fun _ _ _ _ => true) ex_spawn_ok "NOW" (fun _ => Some [])
              (fun _ => ServerStarted 1) 1000%Z (fun n => repeat 0%Z n) 8888%Z "127.0.0.1"
              false (fun _ => ret tt) (fun _ => None) "uid" ex_w0)
    as (w1 & Hs & Hnone & _).
  rewrite (Hnone eq_refl).
  unfold try_except, ret in Hs. injection Hs as <-. reflexivity.
Defined.

Lemma session_port_and_token_witness :
  ex_run_session = (fst ex_run_session, snd ex_run_session) /\
  List.length (ex_urandom 16) = 16 /\
  String.length (token_hex ex_urandom 16) = 32 /\
  exists new, trace (snd ex_run_session) = app new (trace ex_w0) /\
    In (EvUpdate "jupyter_sessions" "session_id" (SInt 3)
          [("status", SStr "running"); ("port", SInt 8922); ("token", SStr (token_hex ex_urandom 16));
           ("pid", SInt 42); ("updated_at", SStr "NOW")] true) new.
Proof.
  assert (H1 : ex_run_session = (fst ex_run_session, snd ex_run_session))
    by (vm_compute; reflexivity).
  assert (H2 : List.length (ex_urandom 16) = 16) by reflexivity.
  destruct (session_port_and_token (fun _ _ _ _ => true) "NOW" (fun _ => Some [ex_session])
              (fun _ => ServerStarted 42) 1234%Z ex_urandom 8888%Z "127.0.0.1" false "uid"
              ex_w0 (fst ex_run_session) (snd ex_run_session) H1 H2)
    as [_ [Hlen _]].
  split; [exact H1 | split; [exact H2 | split; [exact Hlen |]]].
  exists (trace (snd ex_run_session)). split; [reflexivity|].
  vm_compute. left. reflexivity.
Defined.

(* ------------------------------------------------------------------ *)
(** ** Configuration *)

Lemma require_env_ok getenv n :
  required_ok getenv n = true -> exists v, getenv n = Some v /\ require_env getenv n = Ok v.
Proof.
  unfold required_ok, require_env. destruct (getenv n) as [v|]; [|discriminate].
  destruct (v =? ""); [discriminate|]. intros _. exists v. split; reflexivity.
Qed.

Lemma require_env_fail getenv n :
  required_ok getenv n = false -> require_env getenv n = Raise (RuntimeError (n ++ " is required in .env")).
Proof.
  unfold required_ok, require_env. destruct (getenv n) as [v|]; [|reflexivity].
  destruct (v =? ""); [reflexivity | discriminate].
Qed.

(** [load_config] fails on the first of [LAB_EMAIL], [LAB_USER],
    [SUPABASE_URL], [SUPABASE_SERVICE_KEY] (in this order) that is unset
    or empty, with the [RuntimeError] naming it, whatever the other
    variables hold. *)
Theorem load_config_first_missing getenv pre n post :
  REQUIRED_ENV = app pre (n :: post) ->
  Forall (fun m => required_ok getenv m = true) pre ->
  required_ok getenv n = false ->
  load_config getenv = Raise (RuntimeError (n ++ " is required in .env")).
Proof.
  intros Hl Hpre Hn. unfold load_config.
  destruct pre as [|a [|b [|c [|d pre]]]]; simpl in Hl.
  5: { exfalso. apply (f_equal (@List.length string)) in Hl.
       simpl in Hl. rewrite length_app in Hl. simpl in Hl. lia. }
  all: injection Hl; intros; subst;
    repeat match goal with
           | H : Forall _ (_ :: _) |- _ =>
               apply Forall_cons_iff in H as [Hx H];
               destruct (require_env_ok _ _ Hx) as [? [_ Hrq]]; rewrite Hrq; clear Hx Hrq;
               cbn [res_bind]
           end;
    rewrite (require_env_fail _ _ Hn); reflexivity.
Qed.

(** With the four required variables set and non-empty and the numeric
    variables unset, [load_config] succeeds with SMTP port 25, base port
    8800 and a 10 minute sync interval; the sender defaults to
    [LAB_EMAIL], the SMTP host to [localhost], the bind address to
    [0.0.0.0]; [jupyter_legacy] holds exactly when [JUPYTER_LEGACY] is,
    in any letter case, one of [1], [true], [yes]. *)
Theorem load_config_defaults getenv :
  Forall (fun m => required_ok getenv m = true) REQUIRED_ENV ->
  getenv "SMTP_PORT" = None -> getenv "JUPYTER_BASE_PORT" = None ->
  getenv "SYNC_INTERVAL_MIN" = None ->
  exists cfg, load_config getenv = Ok cfg /\
    c_smtp_port cfg = 25%Z /\ c_jupyter_base_port cfg = 8800%Z /\
    c_sync_interval_min cfg = 10%Z /\
    getenv "LAB_EMAIL" = Some (c_email cfg) /\
    (getenv "LAB_FROM_EMAIL" = None -> c_from_email cfg = c_email cfg) /\
    (getenv "SMTP_HOST" = None -> c_smtp_host cfg = "localhost") /\
    (getenv "JUPYTER_IP" = None -> c_jupyter_ip cfg = "0.0.0.0") /\
    (c_jupyter_legacy cfg = true <->
       exists v, getenv "JUPYTER_LEGACY" = Some v /\ In (py_lower v) legacy_values).
Proof.
  intros Hreq Hp Hb Hs. unfold REQUIRED_ENV in Hreq.
  inversion Hreq as [|? ? H1 Hr1]; subst; inversion Hr1 as [|? ? H2 Hr2]; subst;
  inversion Hr2 as [|? ? H3 Hr3]; subst; inversion Hr3 as [|? ? H4 _]; subst.
  destruct (require_env_ok _ _ H1) as [email [He1 E1]].
  destruct (require_env_ok _ _ H2) as [user [_ E2]].
  destruct (require_env_ok _ _ H3) as [url [_ E3]].
  destruct (require_env_ok _ _ H4) as [key [_ E4]].
  unfold load_config, int_env. rewrite E1, E2, E3, E4, Hp, Hb, Hs. cbn [res_bind odflt].
  eexists. split; [reflexivity|].
  cbn [c_smtp_port c_jupyter_base_port c_sync_interval_min c_email c_from_email c_smtp_host
       c_jupyter_ip c_jupyter_legacy].
  split; [reflexivity|]. split; [reflexivity|]. split; [reflexivity|].
  split; [exact He1|].
  split; [intros ->; reflexivity|]. split; [intros ->; reflexivity|].
  split; [intros ->; reflexivity|].
  destruct (getenv "JUPYTER_LEGACY") as [v|]; cbn [odflt].
  - rewrite mem_In. split; [intros H; exists v; split; [reflexivity | exact H]|].
    intros [v' [Hv Hin]]. injection Hv as <-. exact Hin.
  - split; [discriminate | intros [v' [Hv _]]; discriminate].
Qed.


(* ------------------------------------------------------------------ *)
(** ** Script inventory *)

Lemma ltb_leb (a b : string) : String.ltb a b = true -> String.leb a b = true.
Proof. unfold String.ltb, String.leb. destruct (String.compare a b); congruence. Qed.

Lemma ltb_false_leb (a b : string) : String.ltb a b = false -> String.leb b a = true.
Proof.
  unfold String.ltb, String.leb. rewrite (String.compare_antisym b a).
  destruct (String.compare a b); simpl; congruence.
Qed.

Lemma insert_by_path_sorted x l : Sorted path_le l -> Sorted path_le (insert_by_path x l).
Proof.
  induction l as [|y l IH]; simpl; intros H.
  - repeat constructor.
  - destruct (String.ltb (e_path x) (e_path y)) eqn:E.
    + constructor; [exact H | constructor; apply ltb_leb; exact E].
    + inversion H as [|? ? Hl Hhd]; subst. constructor; [apply IH; exact Hl|].
      destruct l as [|z l]; simpl.
      * constructor. apply ltb_false_leb. exact E.
      * destruct (String.ltb (e_path x) (e_path z)); constructor;
          [apply ltb_false_leb; exact E | inversion Hhd; assumption].
Qed.

Lemma insert_by_path_perm x l : Permutation (insert_by_path x l) (x :: l).
Proof.
  induction l as [|y l IH]; simpl; [reflexivity|].
  destruct (String.ltb (e_path x) (e_path y)); [reflexivity|].
  rewrite IH. constructor.
Qed.

Lemma sort_by_path_aux l acc :
  Sorted path_le acc ->
  Sorted path_le (fold_left (fun acc x => insert_by_path x acc) l acc) /\
  Permutation (fold_left (fun acc x => insert_by_path x acc) l acc) (app l acc).
Proof.
  revert acc. induction l as [|x l IH]; intros acc H; simpl; [split; [exact H | reflexivity]|].
  destruct (IH (insert_by_path x acc) (insert_by_path_sorted x acc H)) as [Hs Hp].
  split; [exact Hs|]. rewrite Hp, insert_by_path_perm. symmetry. apply Permutation_middle.
Qed.

Lemma sort_by_path_spec l : Sorted path_le (sort_by_path l) /\ Permutation (sort_by_path l) l.
Proof.
  unfold sort_by_path. destruct (sort_by_path_aux l [] (Sorted_nil _)) as [Hs Hp].
  split; [exact Hs | rewrite Hp, app_nil_r; reflexivity].
Qed.

Lemma keep_some_In {A} (a : A) l : In a (keep_some l) <-> In (Some a) l.
Proof.
  induction l as [|[b|] l IH]; simpl; [tauto| |].
  - rewrite IH. split; intros [H|H]; auto; [left; congruence | left; congruence].
  - rewrite IH. split; [auto | intros [H|H]; [discriminate | exact H]].
Qed.

(** [discover_scripts] returns its rows sorted by path, and a row is
    listed exactly when it describes a walked regular file whose name ends
    in [.py] or [.ipynb], with no component in the skip set, lying under
    [HOME]: its path relative to [HOME], joined by [/], its suffix
    without the dot as type, the given user and the clock reading taken
    for that row. *)
Theorem discover_scripts_spec HOME walk is_file now user_id :
  let found := discover_scripts HOME walk is_file now user_id in
  Sorted path_le found /\
  forall e, In e found <->
    exists p rel, In p walk /\
      (ends_with ".py" (name p) = true \/ ends_with ".ipynb" (name p) = true) /\
      is_file p = true /\ should_skip p = false /\ relative_to HOME p = Some rel /\
      e = {| e_user_id := user_id; e_path := String.concat "/" rel;
             e_type := lstrip_dots (suffix p); e_updated_at := now p |}.
Proof.
  intros found. unfold found, discover_scripts.
  destruct (sort_by_path_spec
              (flat_map (fun pattern => keep_some (map (discover_entry HOME is_file now user_id)
                                                      (rglob walk pattern)))
                 ["*.py"; "*.ipynb"])) as [Hs Hp].
  split; [exact Hs|]. intros e.
  split.
  - intros Hin. apply (Permutation_in _ Hp) in Hin.
    apply in_flat_map in Hin as [pat [Hpat Hin]].
    apply keep_some_In, in_map_iff in Hin as [p [Hd Hin]].
    unfold rglob in Hin. apply filter_In in Hin as [Hw Hn].
    unfold discover_entry in Hd.
    destruct (is_file p) eqn:Hf; [|discriminate]. destruct (should_skip p) eqn:Hk; [discriminate|].
    destruct (relative_to HOME p) as [rel|] eqn:Hr; [|discriminate].
    injection Hd as <-. exists p, rel. split; [exact Hw|].
    split; [|split; [exact Hf | split; [exact Hk | split; [exact Hr | reflexivity]]]].
    destruct Hpat as [<-|[<-|[]]]; [left | right]; exact Hn.
  - intros (p & rel & Hw & Hn & Hf & Hk & Hr & ->).
    apply (Permutation_in _ (Permutation_sym Hp)). apply in_flat_map.
    assert (Hd : discover_entry HOME is_file now user_id p =
                 Some {| e_user_id := user_id; e_path := String.concat "/" rel;
                         e_type := lstrip_dots (suffix p); e_updated_at := now p |})
      by (unfold discover_entry; rewrite Hf, Hk, Hr; reflexivity).
    destruct Hn as [Hn|Hn]; [exists "*.py" | exists "*.ipynb"];
      (split; [simpl; auto|]); apply keep_some_In, in_map_iff; exists p;
      (split; [exact Hd | unfold rglob; apply filter_In; split; [exact Hw | exact Hn]]).
Qed.

Lemma rows_split u t1 t2 :
  rows_of u (app t1 t2) = app (rows_of u t1) (rows_of u t2) /\
  rows_not_of u (app t1 t2) = app (rows_not_of u t1) (rows_not_of u t2).
Proof. unfold rows_of, rows_not_of. rewrite !filter_app. split; reflexivity. Qed.

Lemma rows_of_not_of u t : rows_of u (rows_not_of u t) = [].
Proof.
  induction t as [|x t IH]; [reflexivity|]. unfold rows_of, rows_not_of in *. simpl.
  destruct (e_user_id x =? u) eqn:E; simpl; [exact IH | rewrite E; exact IH].
Qed.

Lemma rows_not_of_idem u t : rows_not_of u (rows_not_of u t) = rows_not_of u t.
Proof.
  induction t as [|x t IH]; [reflexivity|]. unfold rows_of, rows_not_of in *. simpl.
  destruct (e_user_id x =? u) eqn:E; simpl; [exact IH | rewrite E; simpl; f_equal; exact IH].
Qed.

Lemma rows_of_own u l : (forall e, In e l -> e_user_id e = u) -> rows_of u l = l /\ rows_not_of u l = [].
Proof.
  induction l as [|x l IH]; intros H; [split; reflexivity|].
  unfold rows_of, rows_not_of in *. simpl.
  rewrite (H x (or_introl eq_refl)), String.eqb_refl. simpl.
  destruct (IH (fun e He => H e (or_intror He))) as [H1 H2]. rewrite H1, H2. split; reflexivity.
Qed.

Lemma discover_scripts_user HOME walk is_file now user_id e :
  In e (discover_scripts HOME walk is_file now user_id) -> e_user_id e = user_id.
Proof.
  unfold discover_scripts. intros Hin.
  apply (Permutation_in _ (proj2 (sort_by_path_spec _))) in Hin.
  apply in_flat_map in Hin as [pat [_ Hin]].
  apply keep_some_In, in_map_iff in Hin as [p [Hd _]].
  unfold discover_entry in Hd.
  destruct (is_file p); [|discriminate]. destruct (should_skip p); [discriminate|].
  destruct (relative_to HOME p); [|discriminate]. injection Hd as <-. reflexivity.
Qed.

(** The inventory sync ([sync_scripts] on what [discover_scripts]
    found) never touches other users' rows of [scripts].  When it goes
    through, the user's rows are exactly the discovered scripts, sorted
    by path.  When it fails, either the [delete] failed and the table is
    unchanged, or the [delete] went through, the [insert] of a non-empty
    inventory failed, and the user is left with no rows at all. *)
Theorem sync_inventory_rows delete_ok insert_ok HOME walk is_file now user_id table r table' :
  let found := discover_scripts HOME walk is_file now user_id in
  sync_scripts delete_ok insert_ok user_id found table = (r, table') ->
  rows_not_of user_id table' = rows_not_of user_id table /\
  (r = Ok tt -> rows_of user_id table' = found) /\
  (r <> Ok tt ->
     (delete_ok = false /\ table' = table) \/
     (delete_ok = true /\ found <> [] /\ rows_of user_id table' = [])).
Proof.
  intros found H.
  destruct (rows_of_own user_id found (discover_scripts_user HOME walk is_file now user_id))
    as [Ho Hn].
  fold found in Ho, Hn.
  unfold sync_scripts in H. destruct delete_ok; cbn [negb] in H.
  2: { injection H as <- <-. split; [reflexivity|].
       split; [discriminate | intros _; left; split; reflexivity]. }
  fold (rows_not_of user_id table) in H.
  destruct found as [|f fs] eqn:Ef.
  - injection H as <- <-. rewrite rows_not_of_idem, rows_of_not_of.
    split; [reflexivity|]. split; [intros _; reflexivity | intros Hr; exfalso; exact (Hr eq_refl)].
  - destruct insert_ok; injection H as <- <-.
    + destruct (rows_split user_id (rows_not_of user_id table) (f :: fs)) as [H1 H2].
      rewrite H1, H2, rows_not_of_idem, rows_of_not_of, Ho, Hn, app_nil_r.
      split; [reflexivity|]. split; [intros _; reflexivity | intros Hr; exfalso; exact (Hr eq_refl)].
    + rewrite rows_not_of_idem, rows_of_not_of. split; [reflexivity|].
      split; [discriminate|]. intros _. right. split; [reflexivity|]. split; [discriminate | reflexivity].
Qed.

(** [record_sync_time] never raises.  When writing the state file fails
    before it is opened nothing changes; when the write fails after
    [open("w")] truncated the file, the file holds what was written before
    the failure and nothing else changes.  When it succeeds and the
    timestamp it wrote reads back (through [strip] and [fromisoformat]) as
    the aware instant [t0], a later [should_sync_scripts] with a positive
    interval below [TIMEDELTA_MAX_MINUTES] answers whether at least that
    many minutes have passed since [t0], and with a larger interval raises.
    A state file holding a naive timestamp makes [should_sync_scripts]
    raise instead, for every positive interval, leaving the file as it is. *)
Theorem sync_time_round_trip HOME unreadable fromisoformat now_dt now_iso record_out interval
    w r w1 t0 :
  record_sync_time HOME now_iso record_out w = (r, w1) ->
  r = Ok tt /\
  (record_out = WriteNotOpened -> w1 = w) /\
  (forall written, record_out = WriteTruncated written ->
     file_lookup (files w1) (SYNC_STATE_FILE HOME) = Some written /\
     (forall q, q <> SYNC_STATE_FILE HOME -> file_lookup (files w1) q = file_lookup (files w) q) /\
     trace w1 = trace w) /\
  (record_out = WriteOk -> unreadable (SYNC_STATE_FILE HOME) = false ->
   fromisoformat (py_strip now_iso) = Some {| dt_micros := t0; dt_aware := true |} ->
   (0 < interval)%Z ->
   ((interval < TIMEDELTA_MAX_MINUTES)%Z ->
    should_sync_scripts HOME unreadable fromisoformat now_dt interval w1 =
      (Ok (interval * 60 * 1000000 <=? now_dt - t0)%Z, w1)) /\
   ((TIMEDELTA_MAX_MINUTES <= interval)%Z ->
    exists e, should_sync_scripts HOME unreadable fromisoformat now_dt interval w1 = (Raise e, w1))) /\
  (forall w2 c t, (0 < interval)%Z ->
     file_status_of unreadable w2 (SYNC_STATE_FILE HOME) = FText c ->
     fromisoformat (py_strip c) = Some {| dt_micros := t; dt_aware := false |} ->
     exists e, should_sync_scripts HOME unreadable fromisoformat now_dt interval w2 = (Raise e, w2)).
Proof.
  unfold record_sync_time, try_except, bind, write_text, raise, ret.
  intros H. split; [destruct record_out; injection H as <- _; reflexivity|].
  split; [intros ->; injection H as _ <-; reflexivity|].
  split.
  - intros written ->. injection H as _ <-. cbn [files trace].
    split; [apply file_lookup_head|]. split; [|reflexivity].
    intros q Hq. simpl. destruct (list_eq_dec string_dec q (SYNC_STATE_FILE HOME)); congruence.
  - split.
    + intros -> Hu Hf Hi. injection H as _ <-. unfold should_sync_scripts.
      replace (interval <=? 0)%Z with false by lia.
      unfold file_status_of. cbn [files]. rewrite file_lookup_head, Hu, Hf. cbn [dt_aware dt_micros].
      split.
      * intros Hlt. replace (TIMEDELTA_MAX_MINUTES <=? interval)%Z with false by lia. reflexivity.
      * intros Hge. replace (TIMEDELTA_MAX_MINUTES <=? interval)%Z with true by lia.
        eexists. reflexivity.
    + intros w2 c t Hi Hs Hf. unfold should_sync_scripts.
      replace (interval <=? 0)%Z with false by lia. rewrite Hs, Hf. eexists. reflexivity.
Qed.

(* ------------------------------------------------------------------ *)
(** ** The job controller, further *)

Lemma file_lookup_skip (fs : list (path * string)) p q c :
  p <> q -> file_lookup ((q, c) :: fs) p = file_lookup fs p.
Proof. intros Hne. simpl. destruct (list_eq_dec string_dec p q); [contradiction | reflexivity]. Qed.

Lemma job_log_paths_differ HOME j : job_stdout_path HOME j <> job_stderr_path HOME j.
Proof.
  unfold job_stdout_path, job_stderr_path. intros H. apply app_inj_tail in H as [_ H].
  discriminate.
Qed.

(** [execute_job] spawns exactly once, leaves in the two logs exactly what
    the child wrote (or the start failure message), and adds no spawn
    after it. *)
Lemma execute_job_shape unreadable qa spawn now job_id use j cmd cwd so se w r w' :
  so <> se ->
  execute_job unreadable qa spawn now job_id use j cmd cwd so se w = (r, w') ->
  (exists post, trace w' = app post (EvSpawn cmd cwd :: trace w) /\
     forallb (fun e => negb (is_spawn e)) post = true) /\
  file_lookup (files w') so =
    Some (match spawn cmd cwd with Launched _ out _ => out | LaunchFailed _ => "" end) /\
  file_lookup (files w') se =
    Some (match spawn cmd cwd with
          | Launched _ _ err => err
          | LaunchFailed msg => "Failed to start job: " ++ msg ++ NL end).
Proof.
  intros Hne H. unfold execute_job, bind, write_text, emit, append_text, get_tail_at, ret in H.
  cbn beta iota zeta in H.
  destruct (spawn cmd cwd) as [rc out err|msg] eqn:Hsp; cbn [files trace] in H;
  match type of H with
  | context [update_job ?a ?b ?c ?d ?e] => destruct (update_job a b c d e) as [r0 w0] eqn:Eu
  end;
  apply update_job_events in Eu as [Fu [nu [Tu [_ Hu]]]];
  pose proof (updates_no_spawn _ _ _ _ Hu) as Hns;
  destruct r0 as [[]|e]; unfold send_email, emit in H; injection H as <- <-;
  cbn [files trace] in Tu, Fu |- *; rewrite Fu.
  all: assert (Hne' : se <> so) by congruence.
  all: split; [| repeat (rewrite file_lookup_head || rewrite (file_lookup_skip _ _ _ _ Hne)
                         || rewrite (file_lookup_skip _ _ _ _ Hne')); split; reflexivity].
  all: first [ match goal with |- exists p, ?x :: trace _ = _ /\ _ => exists (x :: nu) end
             | exists nu ].
  all: split; [rewrite Tu; reflexivity | simpl; rewrite ?Hns; reflexivity].
Qed.

Lemma update_job_ok_event qa id P use w u w' :
  update_job qa id P use w = (Ok u, w') ->
  exists c pre, trace w' = EvUpdate "jobs" c id P true :: app pre (trace w) /\
    forallb (fun e => negb (is_spawn e)) pre = true.
Proof.
  unfold update_job. destruct use; cbn [update_loop];
  destruct (qa "jobs" "job_id" id P), (qa "jobs" "id" id P);
  unfold emit, bind, raise, ret; intros H; cbv beta iota in H; try discriminate H;
  injection H as _ <-;
  cbn [trace];
  first [ eexists; exists []; split; reflexivity
        | eexists; exists [EvUpdate "jobs" "job_id" id P false]; split; reflexivity
        | eexists; exists [EvUpdate "jobs" "id" id P false]; split; reflexivity ].
Qed.

Lemma validate_step HOME resolve exists_ sp st w o w1 :
  try_except (emit (EvValidate sp st) ;;
              full <- lift (ensure_allowed_script HOME resolve exists_ sp st) ;;
              ret (Ok full))
             (fun e => ret (Raise e)) w = (o, w1) ->
  o = Ok (ensure_allowed_script HOME resolve exists_ sp st) /\
  w1 = {| files := files w; trace := EvValidate sp st :: trace w |}.
Proof.
  unfold try_except, emit, bind, lift, ret.
  destruct (ensure_allowed_script HOME resolve exists_ sp st); intros H; injection H as <- <-;
  split; reflexivity.
Qed.

Lemma py_cmd_args (f : path) (args : list string) :
  match args with [] => ["python"; to_str f] | _ => app ["python"; to_str f] args end =
  app ["python"; to_str f] args.
Proof. destruct args; [rewrite app_nil_r|]; reflexivity. Qed.

(** When a run of [run_job] reaches [execute_job], the args parsed, the
    Sandbox Resolver was asked about the job's script and accepted it,
    a ["running"] update went through, and the command is the one the
    script's suffix selects. *)
Lemma run_job_exec_detail HOME resolve exists_ unreadable qs qa spawn now j user_id w r w' :
  run_job HOME resolve exists_ unreadable qs qa spawn now j user_id w = (r, w') ->
  (exists new, trace w' = app new (trace w) /\ forallb (fun e => negb (is_spawn e)) new = true) \/
  (exists w1 pre full args cmd,
     format_args (f_args j) = Ok args /\
     ensure_allowed_script HOME resolve exists_ (job_script_path qs user_id j)
       (job_script_type qs user_id j) = Ok full /\
     trace w1 = app pre (trace w) /\ forallb (fun e => negb (is_spawn e)) pre = true /\
     In (EvValidate (job_script_path qs user_id j) (job_script_type qs user_id j)) pre /\
     (exists c, In (EvUpdate "jobs" c (job_id_of j) (RUNNING_PAYLOAD now) true) pre) /\
     (suffix full = ".py" -> cmd = app ["python"; to_str full] args) /\
     (suffix full <> ".py" -> cmd = build_nbconvert_command full (job_output_nb HOME j)) /\
     execute_job unreadable qa spawn now (job_id_of j) (use_job_id_of j)
       (job_with_path j (job_script_path qs user_id j)) cmd (parent full)
       (job_stdout_path HOME j) (job_stderr_path HOME j) w1 = (r, w')).
Proof.
  intros H. unfold run_job in H.
  destruct (format_args (f_args j)) as [args|e] eqn:Ef.
  2: { rewrite bind_lift_raise in H. left. apply (no_spawn_use _ _ _ _ H). no_spawn_auto. }
  rewrite bind_lift_ok in H. cbn beta zeta in H.
  unfold use_job_id_of, job_stdout_path, job_stderr_path.
  match type of H with (if ?b then _ else _) _ = _ => destruct b eqn:Hc end.
  { left. match type of H with (if ?b then _ else _) _ = _ => destruct b end;
      apply (no_spawn_use _ _ _ _ H); no_spawn_auto. }
  match type of H with (if ?b then _ else _) _ = _ => destruct b eqn:Hp end.
  { left. apply (no_spawn_use _ _ _ _ H); no_spawn_auto. }
  apply bind_inv in H as [[e [H1 ->]] | [o [w1 [H1 H2]]]].
  { apply validate_step in H1 as [Ho _]. discriminate. }
  apply validate_step in H1 as [Ho Hw1]. injection Ho as ->.
  destruct (ensure_allowed_script HOME resolve exists_ _ _) as [full|e] eqn:Ee.
  2: { left. destruct (no_spawn_use _ _ _ _ H2 ltac:(no_spawn_auto)) as [n2 [T2 F2]].
       exists (app n2 [EvValidate (job_script_path qs user_id j) (job_script_type qs user_id j)]).
       rewrite T2, Hw1, <- app_assoc, forallb_app, F2. split; reflexivity. }
  apply bind_inv in H2 as [[e [H2 ->]] | [u [w2 [H2 H3]]]].
  { left. destruct (no_spawn_use _ _ _ _ H2 ltac:(no_spawn_auto)) as [n2 [T2 F2]].
    exists (app n2 [EvValidate (job_script_path qs user_id j) (job_script_type qs user_id j)]).
    rewrite T2, Hw1, <- app_assoc, forallb_app, F2. split; reflexivity. }
  apply update_job_ok_event in H2 as (c & pre2 & T2 & F2).
  destruct (suffix full =? ".py") eqn:Hs.
  - apply String.eqb_eq in Hs. cbn zeta in H3. right.
    exists w2, (EvUpdate "jobs" c (job_id_of j) (RUNNING_PAYLOAD now) true
                :: app pre2 [EvValidate (job_script_path qs user_id j) (job_script_type qs user_id j)]),
      full, args, (app ["python"; to_str full] args).
    split; [reflexivity|]. split; [reflexivity|].
    split; [rewrite T2, Hw1; simpl; rewrite <- app_assoc; reflexivity|].
    split; [simpl; rewrite forallb_app, F2; reflexivity|].
    split; [right; apply in_or_app; right; left; reflexivity|].
    split; [exists c; left; reflexivity|].
    split; [intros _; reflexivity|].
    split; [intros Hn; contradiction|]. rewrite <- py_cmd_args. exact H3.
  - apply String.eqb_neq in Hs. cbn zeta in H3.
    apply bind_inv in H3 as [[e [H3 ->]] | [u' [w3 [H3 H4]]]].
    + left. destruct (no_spawn_use _ _ _ _ H3 ltac:(destruct args; no_spawn_auto))
        as [n3 [T3 F3]].
      exists (app n3 (EvUpdate "jobs" c (job_id_of j) (RUNNING_PAYLOAD now) true
                :: app pre2 [EvValidate (job_script_path qs user_id j) (job_script_type qs user_id j)])).
      rewrite T3, T2, Hw1. repeat (simpl; rewrite <- app_assoc). simpl. split; [reflexivity|].
      rewrite forallb_app, F3. simpl. rewrite forallb_app, F2. reflexivity.
    + destruct (no_spawn_use _ _ _ _ H3 ltac:(destruct args; no_spawn_auto)) as [n3 [T3 F3]].
      right. exists w3, (app n3 (EvUpdate "jobs" c (job_id_of j) (RUNNING_PAYLOAD now) true
                :: app pre2 [EvValidate (job_script_path qs user_id j) (job_script_type qs user_id j)])),
        full, args, (build_nbconvert_command full (job_output_nb HOME j)).
      split; [reflexivity|]. split; [reflexivity|].
      split; [rewrite T3, T2, Hw1; repeat (simpl; rewrite <- app_assoc); reflexivity|].
      split; [rewrite forallb_app, F3; simpl; rewrite forallb_app, F2; reflexivity|].
      split; [apply in_or_app; right; right; apply in_or_app; right; left; reflexivity|].
      split; [exists c; apply in_or_app; right; left; reflexivity|].
      split; [intros Hn; contradiction|].
      split; [intros _; reflexivity|]. exact H4.
Qed.

Lemma run_job_spawn_split HOME resolve exists_ unreadable qs qa spawn now j user_id
    w r w' new cmd cwd :
  run_job HOME resolve exists_ unreadable qs qa spawn now j user_id w = (r, w') ->
  trace w' = app new (trace w) ->
  In (EvSpawn cmd cwd) new ->
  exists w1 full args before after,
    format_args (f_args j) = Ok args /\
    ensure_allowed_script HOME resolve exists_ (job_script_path qs user_id j)
      (job_script_type qs user_id j) = Ok full /\
    cwd = parent full /\
    new = app after (EvSpawn cmd cwd :: before) /\
    forallb (fun e => negb (is_spawn e)) before = true /\
    forallb (fun e => negb (is_spawn e)) after = true /\
    In (EvValidate (job_script_path qs user_id j) (job_script_type qs user_id j)) before /\
    (exists c, In (EvUpdate "jobs" c (job_id_of j) (RUNNING_PAYLOAD now) true) before) /\
    (suffix full = ".py" -> cmd = app ["python"; to_str full] args) /\
    (suffix full <> ".py" -> cmd = build_nbconvert_command full (job_output_nb HOME j)) /\
    execute_job unreadable qa spawn now (job_id_of j) (use_job_id_of j)
      (job_with_path j (job_script_path qs user_id j)) cmd cwd
      (job_stdout_path HOME j) (job_stderr_path HOME j) w1 = (r, w').
Proof.
  intros H Ht Hin.
  apply run_job_exec_detail in H as [[n [Tn Fn]] |
    (w1 & pre & full & args & cmd0 & Ef & Ee & T1 & F1 & Hv & Hu & Hpy & Hnb & Hx)].
  - rewrite Ht in Tn. apply app_inv_tail in Tn. subst n.
    exfalso. exact (no_spawn_not_in _ _ _ Fn Hin).
  - pose proof Hx as Hx'.
    apply execute_job_shape in Hx' as [(post & Tp & Fp) _]; [| apply job_log_paths_differ].
    rewrite Tp, T1, app_comm_cons, app_assoc in Ht. apply app_inv_tail in Ht. subst new.
    apply in_app_or in Hin as [Hin|[Hin|Hin]].
    + exfalso. exact (no_spawn_not_in _ _ _ Fp Hin).
    + injection Hin as E1 E2. subst cmd0 cwd.
      exists w1, full, args, pre, post.
      split; [exact Ef|]. split; [exact Ee|]. split; [reflexivity|]. split; [reflexivity|].
      split; [exact F1|]. split; [exact Fp|]. split; [exact Hv|].
      split; [exact Hu|]. split; [exact Hpy|]. split; [exact Hnb|]. exact Hx.
    + exfalso. exact (no_spawn_not_in _ _ _ F1 Hin).
Qed.

(** A run of [run_job] starts a process only for a job whose args parse
    and whose script the Sandbox Resolver accepted, after asking it about
    exactly the job's script and after a ["running"] update went through;
    it starts exactly one process, in the resolved script's directory,
    with [python <script> <args>] for a [.py] script and the nbconvert
    command writing to [output.ipynb] in the job's log directory
    otherwise. *)
Theorem run_job_spawn_guarded HOME resolve exists_ unreadable qs qa spawn now j user_id
    w r w' new cmd cwd :
  run_job HOME resolve exists_ unreadable qs qa spawn now j user_id w = (r, w') ->
  trace w' = app new (trace w) ->
  In (EvSpawn cmd cwd) new ->
  exists full args before after,
    format_args (f_args j) = Ok args /\
    ensure_allowed_script HOME resolve exists_ (job_script_path qs user_id j)
      (job_script_type qs user_id j) = Ok full /\
    cwd = parent full /\
    new = app after (EvSpawn cmd cwd :: before) /\
    forallb (fun e => negb (is_spawn e)) before = true /\
    forallb (fun e => negb (is_spawn e)) after = true /\
    In (EvValidate (job_script_path qs user_id j) (job_script_type qs user_id j)) before /\
    (exists c, In (EvUpdate "jobs" c (job_id_of j) (RUNNING_PAYLOAD now) true) before) /\
    (suffix full = ".py" -> cmd = app ["python"; to_str full] args) /\
    (suffix full <> ".py" -> cmd = build_nbconvert_command full (job_output_nb HOME j)).
Proof.
  intros H Ht Hin.
  destruct (run_job_spawn_split _ _ _ _ _ _ _ _ _ _ _ _ _ _ _ _ H Ht Hin)
    as (w1 & full & args & before & after & Hs).
  exists full, args, before, after. tauto.
Qed.

(** After a run of [run_job] that started a process, [stdout.log] holds
    exactly what the child wrote to stdout (nothing when it could not be
    started) and [stderr.log] exactly what it wrote to stderr, or the
    ["Failed to start job: ..."] line: whatever the files held before,
    including what the run itself wrote earlier, is gone. *)
Theorem run_job_logs_after_spawn HOME resolve exists_ unreadable qs qa spawn now j user_id
    w r w' new cmd cwd :
  run_job HOME resolve exists_ unreadable qs qa spawn now j user_id w = (r, w') ->
  trace w' = app new (trace w) ->
  In (EvSpawn cmd cwd) new ->
  file_lookup (files w') (job_stdout_path HOME j) =
    Some (match spawn cmd cwd with Launched _ out _ => out | LaunchFailed _ => "" end) /\
  file_lookup (files w') (job_stderr_path HOME j) =
    Some (match spawn cmd cwd with
          | Launched _ _ err => err
          | LaunchFailed msg => "Failed to start job: " ++ msg ++ NL end).
Proof.
  intros H Ht Hin.
  destruct (run_job_spawn_split _ _ _ _ _ _ _ _ _ _ _ _ _ _ _ _ H Ht Hin)
    as (w1 & full & args & before & after & _ & _ & _ & _ & _ & _ & _ & _ & _ & _ & Hx).
  apply execute_job_shape in Hx as [_ Hf]; [exact Hf | apply job_log_paths_differ].
Qed.




(* ------------------------------------------------------------------ *)
(** ** The session controller, further *)

Lemma update_session_ok_event qa id P use w u w' :
  update_session qa id P use w = (Ok u, w') ->
  exists c pre, trace w' = EvUpdate "jupyter_sessions" c id P true :: app pre (trace w).
Proof.
  unfold update_session. destruct use; cbn [update_loop];
  destruct (qa "jupyter_sessions" "session_id" id P), (qa "jupyter_sessions" "id" id P);
  unfold emit, bind, raise, ret; intros H; cbv beta iota in H; try discriminate H;
  injection H as _ <-; cbn [trace];
  first [ eexists; exists []; reflexivity
        | eexists; exists [EvUpdate "jupyter_sessions" "session_id" id P false]; reflexivity
        | eexists; exists [EvUpdate "jupyter_sessions" "id" id P false]; reflexivity ].
Qed.

(** [handle_jupyter_sessions] only ever writes to the session the
    [select] returned first: with no pending session it only selects;
    otherwise it first attempts the ["starting"] update, and
    attempts a second, final update only when that one went through,
    carrying ["running"] with the port, token and pid when the server
    started and ["error"] with the launch failure message otherwise. *)
Theorem handle_sessions_protocol qa now query_sessions spawn_server getuid urandom
    base ip legacy user_id w r w' :
  handle_jupyter_sessions qa now query_sessions spawn_server getuid urandom base ip legacy
    user_id w = (r, w') ->
  match query_sessions user_id with
  | None => r = Raise (QueueError "jupyter_sessions" "select") /\
            trace w' = EvSelect "jupyter_sessions" :: trace w
  | Some [] => r = Ok tt /\ trace w' = EvSelect "jupyter_sessions" :: trace w
  | Some (s :: _) =>
      exists n1 n2,
        trace w' = app n2 (app n1 (EvSelect "jupyter_sessions" :: trace w)) /\ n1 <> [] /\
        (forall e, In e n1 -> exists c ok, e = EvUpdate "jupyter_sessions" c (session_id_of s)
             [("status", SStr "starting"); ("updated_at", SStr now)] ok) /\
        ((n2 = [] /\ exists e, r = Raise e) \/
         (n2 <> [] /\
          (exists c, In (EvUpdate "jupyter_sessions" c (session_id_of s)
             [("status", SStr "starting"); ("updated_at", SStr now)] true) n1) /\
          forall e, In e n2 -> exists c ok, e = EvUpdate "jupyter_sessions" c (session_id_of s)
             (match spawn_server (launch_cmd ip legacy (base + getuid mod 100)
                                    (token_hex urandom 16)) with
              | ServerStarted pid =>
                  [("status", SStr "running"); ("port", SInt (base + getuid mod 100));
                   ("token", SStr (token_hex urandom 16)); ("pid", SInt pid);
                   ("updated_at", SStr now)]
              | ServerFailed msg =>
                  [("status", SStr "error"); ("error_message", SStr msg); ("updated_at", SStr now)]
              end) ok))
  end.
Proof.
  intros H.
  unfold handle_jupyter_sessions, fetch_pending_session, bind, emit, ret, raise in H.
  destruct (query_sessions user_id) as [[|s ss]|]; cbn beta iota in H.
  1, 3: injection H as <- <-; split; reflexivity.
  match type of H with
  | context [update_session ?a ?b ?c ?d ?e] =>
      destruct (update_session a b c d e) as [r0 w0] eqn:E1
  end.
  pose proof E1 as E1'.
  apply update_session_events in E1 as [F1 [n1 [T1 [Hne1 Hev1]]]]. cbn [files trace] in F1, T1.
  destruct r0 as [[]|e].
  2: { injection H as <- <-. exists n1, [].
       split; [exact T1|]. split; [exact Hne1|]. split; [exact Hev1|].
       left. split; [reflexivity | exists e; reflexivity]. }
  apply update_session_ok_event in E1' as (c1 & pre1 & T1').
  cbn [trace] in T1'.
  assert (Hin1 : In (EvUpdate "jupyter_sessions" c1 (session_id_of s)
             [("status", SStr "starting"); ("updated_at", SStr now)] true) n1).
  { rewrite T1' in T1. rewrite app_comm_cons in T1. apply app_inv_tail in T1.
    rewrite <- T1. left. reflexivity. }
  destruct (spawn_server _) as [pid|msg] eqn:Hsp;
    apply update_session_events in H as [F2 [n2 [T2 [Hne2 Hev2]]]];
    exists n1, n2; (split; [rewrite T2, T1; reflexivity|]);
    (split; [exact Hne1|]); (split; [exact Hev1|]);
    right; (split; [exact Hne2|]); (split; [exists c1; exact Hin1|]);
    exact Hev2.
Qed.

(* ------------------------------------------------------------------ *)
(** ** [main], further *)

Lemma sync_stage_ok (s : M unit) w : exists w1, try_except s (fun _ => ret tt) w = (Ok tt, w1).
Proof.
  unfold try_except, ret. destruct (s w) as [[[]|e] w1]; eexists; reflexivity.
Qed.

(** [main] ends in one of three ways: it returns 1 exactly when the
    configuration or the client could not be made, the user id could not
    be resolved, or the [select] on [jobs] raised; it returns 0 otherwise;
    and it raises only by passing on an exception of [run_job] on the
    first pending job.  Whatever the inventory sync stage and the
    session stage do, they never change the outcome. *)
Theorem main_exit_status HOME resolve exists_ unreadable qs qa spawn now query_sessions
    spawn_server getuid urandom base ip legacy config_ok client_ok resolve_user_id
    sync_inventory query_jobs w r w' :
  main HOME resolve exists_ unreadable qs qa spawn now query_sessions spawn_server getuid
    urandom base ip legacy config_ok client_ok resolve_user_id sync_inventory query_jobs w =
    (r, w') ->
  (r = Ok 1%Z <->
     config_ok = false \/ client_ok = false \/ (exists e, resolve_user_id = Raise e) \/
     (exists uid, resolve_user_id = Ok uid /\ query_jobs uid = None)) /\
  (forall n, r = Ok n -> n = 0%Z \/ n = 1%Z) /\
  (forall e, r = Raise e ->
     exists uid j rest w1, config_ok = true /\ client_ok = true /\ resolve_user_id = Ok uid /\
       query_jobs uid = Some (j :: rest) /\
       run_job HOME resolve exists_ unreadable qs qa spawn now j uid w1 = (Raise e, w')).
Proof.
  intros H. unfold main in H.
  destruct config_ok; cbn [negb] in H.
  2: { unfold ret in H. injection H as <- _.
       split; [split; [intros _; left; reflexivity | intros _; reflexivity]|].
       split; [intros n Hn; injection Hn as <-; right; reflexivity | discriminate]. }
  destruct client_ok; cbn [negb] in H.
  2: { unfold ret in H. injection H as <- _.
       split; [split; [intros _; right; left; reflexivity | intros _; reflexivity]|].
       split; [intros n Hn; injection Hn as <-; right; reflexivity | discriminate]. }
  destruct resolve_user_id as [uid|e0].
  2: { unfold ret in H. injection H as <- _.
       split; [split; [intros _; right; right; left; exists e0; reflexivity | intros _; reflexivity]|].
       split; [intros n Hn; injection Hn as <-; right; reflexivity | discriminate]. }
  destruct (sync_stage_ok (sync_inventory uid) w) as [w1 Es].
  unfold bind at 1 in H. rewrite Es in H.
  cbv [bind try_except fetch_next_job emit ret raise] in H.
  destruct (query_jobs uid) as [[|j rest]|] eqn:Hq; cbv beta iota in H.
  - destruct (handle_jupyter_sessions _ _ _ _ _ _ _ _ _ _ _) as [[[]|e1] w2];
      injection H as <- _;
      (split; [split; [discriminate | intros [Hf|[Hf|[[e Hf]|[u [Hu Hn]]]]]; try discriminate;
                 injection Hu as <-; congruence]|]);
      (split; [intros n Hn; injection Hn as <-; left; reflexivity | discriminate]).
  - destruct (run_job HOME resolve exists_ unreadable qs qa spawn now j uid _) as [[[]|e1] w2]
      eqn:Hr.
    + destruct (handle_jupyter_sessions _ _ _ _ _ _ _ _ _ _ _) as [[[]|e2] w3];
        injection H as <- _;
        (split; [split; [discriminate | intros [Hf|[Hf|[[e Hf]|[u [Hu Hn]]]]]; try discriminate;
                   injection Hu as <-; congruence]|]);
        (split; [intros n Hn; injection Hn as <-; left; reflexivity | discriminate]).
    + injection H as <- <-.
      split; [split; [discriminate | intros [Hf|[Hf|[[e Hf]|[u [Hu Hn]]]]]; try discriminate;
                 injection Hu as <-; congruence]|].
      split; [discriminate|].
      intros e He. injection He as <-. eexists uid, j, rest, _.
      split; [reflexivity|]. split; [reflexivity|]. split; [reflexivity|].
      split; [exact Hq | exact Hr].
  - injection H as <- _.
    split; [split; [intros _; right; right; right; exists uid; split; [reflexivity | exact Hq]
                   | intros _; reflexivity]|].
    split; [intros n Hn; injection Hn as <-; right; reflexivity | discriminate].
Qed.

(** A first pending job whose args cannot be parsed makes [main] raise a
    [ValueError] right after the [select] on [jobs]: the job gets no
    update, so it stays pending and comes first again, and the session
    stage is not reached. *)
Theorem main_poison_job HOME resolve exists_ unreadable qs qa spawn now query_sessions
    spawn_server getuid urandom base ip legacy sync_inventory query_jobs uid j rest e w r w' :
  query_jobs uid = Some (j :: rest) ->
  format_args (f_args j) = Raise e ->
  main HOME resolve exists_ unreadable qs qa spawn now query_sessions spawn_server getuid
    urandom base ip legacy true true (Ok uid) sync_inventory query_jobs w = (r, w') ->
  r = Raise e /\ (exists msg, e = ValueError msg) /\
  exists w1, try_except (sync_inventory uid) (fun _ => ret tt) w = (Ok tt, w1) /\
    w' = {| files := files w1; trace := EvSelect "jobs" :: trace w1 |}.
Proof.
  intros Hq Ef H. unfold main in H. cbn [negb] in H.
  destruct (sync_stage_ok (sync_inventory uid) w) as [w1 Es].
  unfold bind at 1 in H. rewrite Es in H.
  cbv [bind try_except fetch_next_job emit ret raise] in H. rewrite Hq in H.
  cbv beta iota in H.
  unfold run_job in H. rewrite Ef, bind_lift_raise in H. unfold raise in H.
  cbv beta iota in H. injection H as <- <-.
  split; [reflexivity|]. split; [exact (format_args_raises_value_error _ _ Ef)|].
  exists w1. split; [exact Es | reflexivity].
Qed.

(* ------------------------------------------------------------------ *)
(** ** [format_args], further *)

(** [format_args] fails only on a string payload that [shlex.split]
    rejects, and then with a [ValueError]: null, lists, mappings and
    other scalars always give an argument list. *)
Theorem format_args_fails_only_on_strings raw e :
  format_args raw = Raise e ->
  exists s msg, raw = AStr s /\ Shlex.split s = None /\ e = ValueError msg.
Proof.
  destruct raw as [| xs | kvs | s | v]; cbn [format_args]; try discriminate.
  destruct (Shlex.split s) eqn:Hs; [discriminate|].
  intros H. injection H as <-. eexists s, _. split; [reflexivity | split; [exact Hs | reflexivity]].
Qed.

(* ------------------------------------------------------------------ *)
(** ** Sample runs of the properties above *)

Lemma load_config_first_missing_witness :
  REQUIRED_ENV = app ["LAB_EMAIL"; "LAB_USER"] ("SUPABASE_URL" :: ["SUPABASE_SERVICE_KEY"]) /\
  Forall (fun m => required_ok ex_env_nourl m = true) ["LAB_EMAIL"; "LAB_USER"] /\
  required_ok ex_env_nourl "SUPABASE_URL" = false /\
  load_config ex_env_nourl = Raise (RuntimeError ("SUPABASE_URL" ++ " is required in .env")).
Proof.
  assert (H1 : REQUIRED_ENV =
               app ["LAB_EMAIL"; "LAB_USER"] ("SUPABASE_URL" :: ["SUPABASE_SERVICE_KEY"]))
    by reflexivity.
  assert (H2 : Forall (fun m => required_ok ex_env_nourl m = true) ["LAB_EMAIL"; "LAB_USER"])
    by (repeat constructor).
  assert (H3 : required_ok ex_env_nourl "SUPABASE_URL" = false) by reflexivity.
  exact (conj H1 (conj H2 (conj H3 (load_config_first_missing ex_env_nourl _ _ _ H1 H2 H3)))).
Defined.

Lemma load_config_defaults_witness :
  Forall (fun m => required_ok ex_env m = true) REQUIRED_ENV /\
  ex_env "SMTP_PORT" = None /\ ex_env "JUPYTER_BASE_PORT" = None /\
  ex_env "SYNC_INTERVAL_MIN" = None /\
  exists cfg, load_config ex_env = Ok cfg /\ c_smtp_port cfg = 25%Z /\
    c_jupyter_legacy cfg = true.
Proof.
  assert (H1 : Forall (fun m => required_ok ex_env m = true) REQUIRED_ENV)
    by (repeat constructor).
  assert (H2 : ex_env "SMTP_PORT" = None) by reflexivity.
  assert (H3 : ex_env "JUPYTER_BASE_PORT" = None) by reflexivity.
  assert (H4 : ex_env "SYNC_INTERVAL_MIN" = None) by reflexivity.
  split; [exact H1 | split; [exact H2 | split; [exact H3 | split; [exact H4 |]]]].
  destruct (load_config_defaults ex_env H1 H2 H3 H4)
    as (cfg & Hc & Hp & _ & _ & _ & _ & _ & _ & Hl).
  exists cfg. split; [exact Hc|]. split; [exact Hp|].
  apply Hl. exists "True". split; [reflexivity | vm_compute; right; left; reflexivity].
Defined.


Lemma sync_inventory_rows_witness :
  sync_scripts true true "uid" (discover_scripts ex_HOME ex_walk (fun _ => true) (fun _ => "NOW") "uid")
    ex_table = (fst ex_sync, snd ex_sync) /\
  rows_not_of "uid" (snd ex_sync) = rows_not_of "uid" ex_table /\
  rows_of "uid" (snd ex_sync) = discover_scripts ex_HOME ex_walk (fun _ => true) (fun _ => "NOW") "uid".
Proof.
  assert (H : sync_scripts true true "uid"
                (discover_scripts ex_HOME ex_walk (fun _ => true) (fun _ => "NOW") "uid") ex_table =
              (fst ex_sync, snd ex_sync)) by (vm_compute; reflexivity).
  destruct (sync_inventory_rows true true ex_HOME ex_walk (fun _ => true) (fun _ => "NOW") "uid" ex_table
              (fst ex_sync) (snd ex_sync) H) as (Hn & Ho & _).
  split; [exact H | split; [exact Hn | apply Ho; vm_compute; reflexivity]].
Defined.

Lemma sync_time_round_trip_witness :
  record_sync_time ex_HOME "2026-01-01T00:00:00+00:00" WriteOk ex_w0 =
    (fst ex_record, snd ex_record) /\
  should_sync_scripts ex_HOME (fun _ => false) ex_fromiso 700000000 10 (snd ex_record) =
    (Ok true, snd ex_record) /\
  (exists e, should_sync_scripts ex_HOME (fun _ => false) ex_fromiso 700000000
               TIMEDELTA_MAX_MINUTES (snd ex_record) = (Raise e, snd ex_record)).
Proof.
  assert (H : record_sync_time ex_HOME "2026-01-01T00:00:00+00:00" WriteOk ex_w0 =
              (fst ex_record, snd ex_record)) by (vm_compute; reflexivity).
  split; [exact H|].
  destruct (sync_time_round_trip ex_HOME (fun _ => false) ex_fromiso 700000000
              "2026-01-01T00:00:00+00:00" WriteOk 10 ex_w0 (fst ex_record) (snd ex_record) 0 H)
    as (_ & _ & _ & H3 & _).
  destruct (sync_time_round_trip ex_HOME (fun _ => false) ex_fromiso 700000000
              "2026-01-01T00:00:00+00:00" WriteOk TIMEDELTA_MAX_MINUTES ex_w0
              (fst ex_record) (snd ex_record) 0 H)
    as (_ & _ & _ & H4 & _).
  split.
  - destruct (H3 eq_refl eq_refl ltac:(vm_compute; reflexivity) ltac:(lia)) as [H3a _].
    rewrite (H3a ltac:(unfold TIMEDELTA_MAX_MINUTES; lia)). reflexivity.
  - destruct (H4 eq_refl eq_refl ltac:(vm_compute; reflexivity)
                 ltac:(unfold TIMEDELTA_MAX_MINUTES; lia)) as [_ H4b].
    exact (H4b ltac:(lia)).
Defined.

Lemma run_job_spawn_guarded_witness :
  ex_run_py ex_spawn_ok = (fst (ex_run_py ex_spawn_ok), snd (ex_run_py ex_spawn_ok)) /\
  trace (snd (ex_run_py ex_spawn_ok)) = app (trace (snd (ex_run_py ex_spawn_ok))) (trace ex_w0) /\
  In (EvSpawn ["python"; "/home/u/a.py"; "x"] ["home"; "u"]) (trace (snd (ex_run_py ex_spawn_ok))) /\
  exists full, ensure_allowed_script ex_HOME ex_resolve ex_exists
    (job_script_path (fun _ _ _ => None) "uid" ex_py_job)
    (job_script_type (fun _ _ _ => None) "uid" ex_py_job) = Ok full /\ ["home"; "u"] = parent full.
Proof.
  assert (H1 : ex_run_py ex_spawn_ok = (fst (ex_run_py ex_spawn_ok), snd (ex_run_py ex_spawn_ok)))
    by (vm_compute; reflexivity).
  assert (H2 : trace (snd (ex_run_py ex_spawn_ok)) =
               app (trace (snd (ex_run_py ex_spawn_ok))) (trace ex_w0))
    by (vm_compute; reflexivity).
  assert (H3 : In (EvSpawn ["python"; "/home/u/a.py"; "x"] ["home"; "u"])
                  (trace (snd (ex_run_py ex_spawn_ok))))
    by (vm_compute; right; right; left; reflexivity).
  split; [exact H1 | split; [exact H2 | split; [exact H3 |]]].
  destruct (run_job_spawn_guarded ex_HOME ex_resolve ex_exists (fun _ => false)
              (fun _ _ _ => None) (fun _ _ _ _ => true) ex_spawn_ok "NOW" ex_py_job "uid"
              ex_w0 _ _ _ _ _ H1 H2 H3) as (full & _ & _ & _ & _ & He & Hc & _).
  exists full. split; [exact He | exact Hc].
Defined.

Lemma run_job_logs_after_spawn_witness :
  ex_run_py ex_spawn_ok = (fst (ex_run_py ex_spawn_ok), snd (ex_run_py ex_spawn_ok)) /\
  trace (snd (ex_run_py ex_spawn_ok)) = app (trace (snd (ex_run_py ex_spawn_ok))) (trace ex_w0) /\
  In (EvSpawn ["python"; "/home/u/a.py"; "x"] ["home"; "u"]) (trace (snd (ex_run_py ex_spawn_ok))) /\
  file_lookup (files (snd (ex_run_py ex_spawn_ok))) (job_stdout_path ex_HOME ex_py_job) = Some "ok".
Proof.
  assert (H1 : ex_run_py ex_spawn_ok = (fst (ex_run_py ex_spawn_ok), snd (ex_run_py ex_spawn_ok)))
    by (vm_compute; reflexivity).
  assert (H2 : trace (snd (ex_run_py ex_spawn_ok)) =
               app (trace (snd (ex_run_py ex_spawn_ok))) (trace ex_w0))
    by (vm_compute; reflexivity).
  assert (H3 : In (EvSpawn ["python"; "/home/u/a.py"; "x"] ["home"; "u"])
                  (trace (snd (ex_run_py ex_spawn_ok))))
    by (vm_compute; right; right; left; reflexivity).
  split; [exact H1 | split; [exact H2 | split; [exact H3 |]]].
  exact (proj1 (run_job_logs_after_spawn ex_HOME ex_resolve ex_exists (fun _ => false)
              (fun _ _ _ => None) (fun _ _ _ _ => true) ex_spawn_ok "NOW" ex_py_job "uid"
              ex_w0 _ _ _ _ _ H1 H2 H3)).
Defined.



Lemma handle_sessions_protocol_witness :
  ex_run_session = (fst ex_run_session, snd ex_run_session) /\
  exists n1 n2, trace (snd ex_run_session) = app n2 (app n1 [EvSelect "jupyter_sessions"]).
Proof.
  assert (H : ex_run_session = (fst ex_run_session, snd ex_run_session))
    by (vm_compute; reflexivity).
  split; [exact H|].
  pose proof (handle_sessions_protocol (fun _ _ _ _ => true) "NOW" (fun _ => Some [ex_session])
                (fun _ => ServerStarted 42) 1234%Z ex_urandom 8888%Z "127.0.0.1" false "uid"
                ex_w0 _ _ H) as Hp.
  cbv beta iota in Hp. destruct Hp as (n1 & n2 & Ht & _). exists n1, n2. exact Ht.
Defined.

Lemma main_exit_status_witness :
  ex_main (fun _ => None) = (fst (ex_main (fun _ => None)), snd (ex_main (fun _ => None))) /\
  fst (ex_main (fun _ => None)) = Ok 1%Z.
Proof.
  assert (H : ex_main (fun _ => None) =
              (fst (ex_main (fun _ => None)), snd (ex_main (fun _ => None))))
    by (vm_compute; reflexivity).
  split; [exact H|].
  destruct (main_exit_status ex_HOME ex_resolve ex_exists (fun _ => false) (fun _ _ _ => None)
              (fun _ _ _ _ => true) ex_spawn_ok "NOW" (fun _ => Some [ex_session])
              (fun _ => ServerStarted 42) 1234%Z ex_urandom 8888%Z "127.0.0.1" false true true
              (Ok "uid") (fun _ => ret tt) (fun _ => None) ex_w0 _ _ H) as [[_ Hone] _].
  apply Hone. right; right; right. exists "uid". split; reflexivity.
Defined.

Lemma main_poison_job_witness :
  format_args (f_args ex_bad_job) = Raise (ValueError "No closing quotation") /\
  ex_main (fun _ => Some [ex_bad_job]) =
    (fst (ex_main (fun _ => Some [ex_bad_job])), snd (ex_main (fun _ => Some [ex_bad_job]))) /\
  fst (ex_main (fun _ => Some [ex_bad_job])) = Raise (ValueError "No closing quotation").
Proof.
  assert (H1 : (fun _ : string => Some [ex_bad_job]) "uid" = Some (ex_bad_job :: []))
    by reflexivity.
  assert (H2 : format_args (f_args ex_bad_job) = Raise (ValueError "No closing quotation"))
    by (vm_compute; reflexivity).
  assert (H3 : ex_main (fun _ => Some [ex_bad_job]) =
               (fst (ex_main (fun _ => Some [ex_bad_job])),
                snd (ex_main (fun _ => Some [ex_bad_job])))) by (vm_compute; reflexivity).
  split; [exact H2 | split; [exact H3 |]].
  exact (proj1 (main_poison_job ex_HOME ex_resolve ex_exists (fun _ => false) (fun _ _ _ => None)
              (fun _ _ _ _ => true) ex_spawn_ok "NOW" (fun _ => Some [ex_session])
              (fun _ => ServerStarted 42) 1234%Z ex_urandom 8888%Z "127.0.0.1" false
              (fun _ => ret tt) (fun _ => Some [ex_bad_job]) "uid" ex_bad_job [] _ ex_w0 _ _
              H1 H2 H3)).
Defined.

Lemma format_args_fails_only_on_strings_witness :
  format_args (AStr "--name 'unclosed") = Raise (ValueError "No closing quotation") /\
  Shlex.split "--name 'unclosed" = None.
Proof.
  assert (H : format_args (AStr "--name 'unclosed") = Raise (ValueError "No closing quotation"))
    by (vm_compute; reflexivity).
  split; [exact H|].
  destruct (format_args_fails_only_on_strings _ _ H) as (s & msg & Hr & Hs & _).
  injection Hr as <-. exact Hs.
Defined.
